(** * export_data: extraction of cadastral XML records and their load into
  the relational store (extract_xml_to_db.py).

  The development embeds the parser class [XMLParser] and the loader class
  [DatabaseInserter] and states the properties of the extraction and of the
  load over that embedding.  Python strings are [string]s whose characters
  are the code points below 256; [None] is [None]; a dict with fixed keys is
  a record with the keys as fields; the dict [vo_chong_map] is a [gmap]. *)

From Stdlib Require Import String Ascii List ZArith Lia Bool.
From stdpp Require Import base option list strings gmap fin_maps.

Set Warnings "-register-all".

Open Scope string_scope.
Open Scope nat_scope.
Open Scope list_scope.

(** ** Python [str] methods used by the parser *)

Module PyStr.

(** [bool(s)] of a string: the empty string is falsy. *)
Definition truthy (s : string) : bool :=
  match s with
  | EmptyString => false
  | String _ _ => true
  end.

(** [bool(x)] of an [Optional[str]]: [None] and [''] are falsy. *)
Definition otruthy (x : option string) : bool :=
  match x with
  | None => false
  | Some s => truthy s
  end.

(** [c.isspace()] on the code points below 256: TAB, LF, VT, FF, CR, the
    separators FS, GS, RS and US, SPACE, NEL and NO-BREAK SPACE. *)
Definition isspace (c : ascii) : bool :=
  let n := nat_of_ascii c in
  (((9 <=? n) && (n <=? 13)) || ((28 <=? n) && (n <=? 32))
   || (n =? 133) || (n =? 160))%nat.

(** [s.lstrip()] *)
Fixpoint lstrip (s : string) : string :=
  match s with
  | EmptyString => EmptyString
  | String c s' => if isspace c then lstrip s' else s
  end.

(** [s.rstrip()] *)
Fixpoint rstrip (s : string) : string :=
  match s with
  | EmptyString => EmptyString
  | String c s' =>
      match rstrip s' with
      | EmptyString => if isspace c then EmptyString else String c EmptyString
      | r => String c r
      end
  end.

(** [s.strip()] *)
Definition strip (s : string) : string := rstrip (lstrip s).

(** [c.lower()] on the code points below 256: A-Z and the accented capitals
    U+00C0..U+00DE (the multiplication sign U+00D7 apart) move up by 32. *)
Definition lower_char (c : ascii) : ascii :=
  let n := nat_of_ascii c in
  if (((65 <=? n) && (n <=? 90))
      || ((192 <=? n) && (n <=? 222) && negb (n =? 215)))%nat
  then ascii_of_nat (n + 32) else c.

(** [s.lower()] *)
Fixpoint lower (s : string) : string :=
  match s with
  | EmptyString => EmptyString
  | String c s' => String (lower_char c) (lower s')
  end.

(** [x in l] for a list of strings. *)
Definition mem (x : string) (l : list string) : bool :=
  existsb (String.eqb x) l.

(** [a == b] where [a] is an [Optional[str]] and [b] a [str]. *)
Definition oeqb (a : option string) (b : string) : bool :=
  match a with
  | None => false
  | Some s => String.eqb s b
  end.

(** The string holds a character that is not white space. *)
Definition has_ink (s : string) : bool :=
  existsb (fun c => negb (isspace c)) (list_ascii_of_string s).

(** First and last character of a string. *)
Definition first_char (s : string) : option ascii :=
  match s with
  | EmptyString => None
  | String c _ => Some c
  end.

Fixpoint last_char (s : string) : option ascii :=
  match s with
  | EmptyString => None
  | String c EmptyString => Some c
  | String _ s' => last_char s'
  end.

(** A trimmed string: neither its first nor its last character is white
    space. *)
Definition trimmed (s : string) : Prop :=
  (forall c, first_char s = Some c -> isspace c = false) /\
  (forall c, last_char s = Some c -> isspace c = false).

End PyStr.

(** ** The element tree of [xml.etree.ElementTree] *)

Module ET.

(** An element: its tag, its text ([None] for an element without text) and
    its children in document order. *)
Inductive Element : Type :=
  mkElement { tag : string; text : option string; children : list Element }.

(** [bool(e)]: an element is truthy when it has a child. *)
Definition truth (e : Element) : bool :=
  match children e with
  | [] => false
  | _ :: _ => true
  end.

Definition has_tag (t : string) (e : Element) : bool := String.eqb (tag e) t.

(** [e.findall(t)] for a plain tag: the direct children with that tag. *)
Definition findall (e : Element) (t : string) : list Element :=
  List.filter (has_tag t) (children e).

(** [e.find(t)] for a plain tag: the first direct child with that tag. *)
Definition find (e : Element) (t : string) : option Element :=
  List.find (has_tag t) (children e).

(** [e.iter()]: the element and its descendants, in document order. *)
Fixpoint iter (e : Element) : list Element :=
  e :: (fix iter_all (l : list Element) : list Element :=
          match l with
          | [] => []
          | c :: l' => iter c ++ iter_all l'
          end) (children e).

(** The proper descendants of an element, in document order. *)
Definition descendants (e : Element) : list Element :=
  List.flat_map iter (children e).

(** [e.findall('.//' + t)]: every proper descendant with that tag. *)
Definition findall_desc (e : Element) (t : string) : list Element :=
  List.filter (has_tag t) (descendants e).

(** [e.find('.//' + t)]: the first proper descendant with that tag. *)
Definition find_desc (e : Element) (t : string) : option Element :=
  List.find (has_tag t) (descendants e).

(** A leaf element holding a text, as [<t>s</t>]. *)
Definition leaf (t s : string) : Element := mkElement t (Some s) [].

(** An element holding only children. *)
Definition node (t : string) (l : list Element) : Element := mkElement t None l.

End ET.

(** ** [datetime.strptime] and [strftime] for the formats of the parser *)

Module Strptime.

(** The directives that occur in the formats of the parser. *)
Inductive directive : Type := dY | dm | dd | dH | dM | dS.

(** A format is a sequence of directives, literal characters and white
    space; white space in a format is compiled to the pattern [\s+]. *)
Inductive item : Type :=
| Dir (d : directive)
| Lit (c : ascii)
| Blank.

Definition format : Type := list item.

(** ['%Y-%m-%d'] *)
Definition fmt_Y_m_d : format :=
  [Dir dY; Lit "-"; Dir dm; Lit "-"; Dir dd].

(** ['%Y-%m-%d %H:%M:%S'] *)
Definition fmt_Y_m_d_H_M_S : format :=
  [Dir dY; Lit "-"; Dir dm; Lit "-"; Dir dd; Blank;
   Dir dH; Lit ":"; Dir dM; Lit ":"; Dir dS].

(** ['%d/%m/%Y'] *)
Definition fmt_d_m_Y : format :=
  [Dir dd; Lit "/"; Dir dm; Lit "/"; Dir dY].

(** Character classes of the patterns. *)
Definition cls : Type := ascii -> bool.

Definition between (a b : ascii) : cls :=
  fun c => (nat_of_ascii a <=? nat_of_ascii c) && (nat_of_ascii c <=? nat_of_ascii b).

Definition digit : cls := between "0" "9".

Definition only (a : ascii) : cls := Ascii.eqb a.

(** The pattern of each directive, as the ordered alternatives of
    [_strptime.TimeRE]: [%Y] is [\d\d\d\d], [%m] is [1[0-2]|0[1-9]|[1-9]],
    [%d] is [3[0-1]|[1-2]\d|0[1-9]|[1-9]| [1-9]], [%H] is
    [2[0-3]|[0-1]\d|\d], [%M] is [[0-5]\d|\d], [%S] is [6[0-1]|[0-5]\d|\d]. *)
Definition alternatives (d : directive) : list (list cls) :=
  match d with
  | dY => [[digit; digit; digit; digit]]
  | dm => [[only "1"; between "0" "2"]; [only "0"; between "1" "9"];
           [between "1" "9"]]
  | dd => [[only "3"; between "0" "1"]; [between "1" "2"; digit];
           [only "0"; between "1" "9"]; [between "1" "9"];
           [only " "; between "1" "9"]]
  | dH => [[only "2"; between "0" "3"]; [between "0" "1"; digit]; [digit]]
  | dM => [[between "0" "5"; digit]; [digit]]
  | dS => [[only "6"; between "0" "1"]; [between "0" "5"; digit]; [digit]]
  end.

(** One alternative against the head of the input: the matched text and
    the rest of the input. *)
Fixpoint match_seq (cs : list cls) (s : string) : option (string * string) :=
  match cs with
  | [] => Some (EmptyString, s)
  | k :: cs' =>
      match s with
      | EmptyString => None
      | String c s' =>
          if k c then
            match match_seq cs' s' with
            | Some (m, r) => Some (String c m, r)
            | None => None
            end
          else None
      end
  end.

(** The ways a directive matches the head of the input, in the order the
    backtracking matcher tries them. *)
Definition match_dir (d : directive) (s : string) : list (string * string) :=
  List.flat_map
    (fun alt => match match_seq alt s with Some r => [r] | None => [] end)
    (alternatives d).

(** The ways [\s+] matches the head of the input, the longest run first;
    each is given by the rest of the input. *)
Fixpoint match_blank (s : string) : list string :=
  match s with
  | EmptyString => []
  | String c s' => if PyStr.isspace c then match_blank s' ++ [s'] else []
  end.

(** The groups a match has bound. *)
Definition groups : Type := list (directive * string).

(** The ways the whole pattern matches a prefix of the input, in the order
    of the backtracking matcher, each with the rest of the input. *)
Fixpoint match_fmt (f : format) (s : string) : list (groups * string) :=
  match f with
  | [] => [([], s)]
  | Dir d :: f' =>
      List.flat_map
        (fun vr : string * string =>
           List.map (fun gr : groups * string => ((d, fst vr) :: fst gr, snd gr))
                    (match_fmt f' (snd vr)))
        (match_dir d s)
  | Lit c :: f' =>
      match s with
      | EmptyString => []
      | String c' s' => if Ascii.eqb c c' then match_fmt f' s' else []
      end
  | Blank :: f' => List.flat_map (match_fmt f') (match_blank s)
  end.

(** [format_regex.match(data_string)]: the first match, if any. *)
Definition regex_match (f : format) (s : string) : option (groups * string) :=
  List.head (match_fmt f s).

(** [int(s)] on the text of a group: decimal digits, white space around
    them ignored. *)
Definition int (s : string) : N :=
  List.fold_left (fun acc c => (acc * 10 + (N_of_ascii c - 48))%N)
                 (list_ascii_of_string (PyStr.strip s)) 0%N.

(** A [datetime] value. *)
Record datetime : Type :=
  mkDatetime { year : N; month : N; day : N;
               hour : N; minute : N; second : N }.

Definition set_field (dt : datetime) (g : directive * string) : datetime :=
  let v := int (snd g) in
  match fst g with
  | dY => mkDatetime v (month dt) (day dt) (hour dt) (minute dt) (second dt)
  | dm => mkDatetime (year dt) v (day dt) (hour dt) (minute dt) (second dt)
  | dd => mkDatetime (year dt) (month dt) v (hour dt) (minute dt) (second dt)
  | dH => mkDatetime (year dt) (month dt) (day dt) v (minute dt) (second dt)
  | dM => mkDatetime (year dt) (month dt) (day dt) (hour dt) v (second dt)
  | dS => mkDatetime (year dt) (month dt) (day dt) (hour dt) (minute dt) v
  end.

(** The fields of the groups over the defaults 1900-01-01 00:00:00. *)
Definition of_groups (g : groups) : datetime :=
  List.fold_left set_field g (mkDatetime 1900 1 1 0 0 0).

Definition is_leap (y : N) : bool :=
  (((y mod 4 =? 0) && negb (y mod 100 =? 0)) || (y mod 400 =? 0))%N.

Definition days_in_month (y m : N) : N :=
  match m with
  | 2 => if is_leap y then 29 else 28
  | 4 | 6 | 9 | 11 => 30
  | _ => 31
  end%N.

(** The checks of the [datetime] constructor. *)
Definition valid (dt : datetime) : bool :=
  ((1 <=? year dt) && (year dt <=? 9999)
   && (1 <=? month dt) && (month dt <=? 12)
   && (1 <=? day dt) && (day dt <=? days_in_month (year dt) (month dt))
   && (hour dt <=? 23) && (minute dt <=? 59) && (second dt <=? 59))%N.

(** [datetime.strptime(s, f)]; [None] stands for [ValueError]: the pattern
    does not match, text remains after the match, or the fields are not a
    date. *)
Definition strptime (s : string) (f : format) : option datetime :=
  match regex_match f s with
  | None => None
  | Some (g, rest) =>
      match rest with
      | EmptyString =>
          let dt := of_groups g in if valid dt then Some dt else None
      | String _ _ => None
      end
  end.

Definition digit_char (n : N) : ascii := ascii_of_N (48 + n mod 10).

Definition pad2 (n : N) : string :=
  String (digit_char (n / 10)) (String (digit_char n) EmptyString).

Definition pad4 (n : N) : string :=
  String (digit_char (n / 1000)) (String (digit_char (n / 100))
    (String (digit_char (n / 10)) (String (digit_char n) EmptyString))).

(** The year as [%Y] writes it.  The directive is handed to the C library,
    and glibc writes the decimal digits of the year without padding: a year
    before 1000 comes out on fewer than four digits.  (Years are between 1
    and 9999.) *)
Definition year_text (n : N) : string :=
  if (n <? 10)%N then String (digit_char n) EmptyString
  else if (n <? 100)%N then pad2 n
  else if (n <? 1000)%N then String (digit_char (n / 100)) (pad2 n)
  else pad4 n.

Definition render (dt : datetime) (d : directive) : string :=
  match d with
  | dY => year_text (year dt)
  | dm => pad2 (month dt)
  | dd => pad2 (day dt)
  | dH => pad2 (hour dt)
  | dM => pad2 (minute dt)
  | dS => pad2 (second dt)
  end.

(** [dt.strftime(f)]; month, day, hour, minute and second are written on
    two digits, the year as [year_text] says. *)
Fixpoint strftime (dt : datetime) (f : format) : string :=
  match f with
  | [] => EmptyString
  | Dir d :: f' => render dt d +:+ strftime dt f'
  | Lit c :: f' => String c (strftime dt f')
  | Blank :: f' => String " " (strftime dt f')
  end.

End Strptime.

(** ** The records the parser produces *)

(** A value of [vo_chong_map], and the owner fields of a parcel. *)
Module VoChong.
Record t : Type :=
  mk { voChongID : option string; voID : option string; chongID : option string }.
End VoChong.

(** A parcel, as the dict built by [extract_thuadat_data]. *)
Module ThuaDat.
Record t : Type :=
  mk { thuaDatID : string;
       maDVHCXa : option string;
       soHieuToBanDo : option string;
       soThuTuThua : option string;
       dienTich : option string;
       dienTichPhapLy : option string;
       diaChiID : option string;
       voChongID : option string;
       voID : option string;
       chongID : option string;
       phanLoaiDuLieu : option string;
       trangThaiDangKy : option string;
       hieuLuc : option bool;
       phienBan : option string }.

(** The three owner fields of a parcel. *)
Definition owner (r : t) : VoChong.t :=
  VoChong.mk (voChongID r) (voID r) (chongID r).
End ThuaDat.

(** The identity-document fields of a person, the dict [giay_to_info]. *)
Module GiayTo.
Record t : Type :=
  mk { giayToTuyThanID : option string;
       tenLoaiGiayToTuyThan : option string;
       ngayCap : option string;
       noiCap : option string;
       maDinhDanhCaNhan : option string;
       hieuLuc : option bool;
       soGiayTo : option string;
       loaiGiayToTuyThan : option string }.
End GiayTo.

(** A person, as the dict built by [extract_canhan_data]: the person's own
  fields and the fields of [giay_to_info] spread into it. *)
Module CaNhan.
Record t : Type :=
  mk { caNhanID : string;
       hoTen : option string;
       namSinh : option string;
       diaChiID : option string;
       gioiTinh : option string;
       phienBan : option string;
       giayToTuyThanID : option string;
       tenLoaiGiayToTuyThan : option string;
       ngayCap : option string;
       noiCap : option string;
       maDinhDanhCaNhan : option string;
       hieuLuc : option bool;
       soGiayTo : option string;
       loaiGiayToTuyThan : option string }.

(** The identity-document fields a person record carries. *)
Definition giay_to (r : t) : GiayTo.t :=
  GiayTo.mk (giayToTuyThanID r) (tenLoaiGiayToTuyThan r) (ngayCap r) (noiCap r)
            (maDinhDanhCaNhan r) (hieuLuc r) (soGiayTo r) (loaiGiayToTuyThan r).
End CaNhan.

(** A certificate, as the dict built by [extract_giaychungnhan_data]. *)
Module GiayChungNhan.
Record t : Type :=
  mk { giayChungNhanID : string;
       soVaoSo : option string;
       soPhatHanh : option string;
       MaGiayChungNhan : option string;
       ngayCap : option string;
       maVach : option string;
       nguoiKy : option string;
       soVaoSoCu : option string }.
End GiayChungNhan.

(** A document component, as the dict built by [extract_hoso_data]. *)
Module HoSo.
Record t : Type :=
  mk { thanhPhanHoSoID : string;
       hoSoDangKySoID : option string;
       giayChungNhanID : option string;
       loaiGiayTo : option string;
       tepTin : option string;
       url : option string;
       maHoSoLuuTru : option string;
       maDVHCXa : option string }.

(** [data['giayChungNhanID'] = v] *)
Definition set_giayChungNhanID (v : option string) (r : t) : t :=
  mk (thanhPhanHoSoID r) (hoSoDangKySoID r) v (loaiGiayTo r) (tepTin r)
     (url r) (maHoSoLuuTru r) (maDVHCXa r).
End HoSo.

(** ** The class [XMLParser] *)

Module XMLParser.

Import ET.

(** [_get_text(element, tag, default)] *)
Definition _get_text (element : option Element) (tag : string)
           (default : option string) : option string :=
  match element with
  | None => default
  | Some e =>
      match find e tag with
      | Some child =>
          match text child with
          | Some t => if PyStr.truthy t then Some (PyStr.strip t) else default
          | None => default
          end
      | None => default
      end
  end.
Global Arguments _get_text : simpl never.

(** The loop over the candidate formats: the first format that parses the
    text gives the result, rendered with [out]. *)
Fixpoint first_format (fmts : list Strptime.format) (out : Strptime.format)
         (s : string) : option string :=
  match fmts with
  | [] => None
  | fmt :: fmts' =>
      match Strptime.strptime s fmt with
      | Some dt => Some (Strptime.strftime dt out)
      | None => first_format fmts' out s
      end
  end.

(** The formats [_parse_date] tries, in its order. *)
Definition date_formats : list Strptime.format :=
  [Strptime.fmt_Y_m_d; Strptime.fmt_Y_m_d_H_M_S; Strptime.fmt_d_m_Y].

(** [_parse_date(date_str)] *)
Definition _parse_date (date_str : option string) : option string :=
  match date_str with
  | None => None
  | Some s =>
      if PyStr.truthy s
      then first_format date_formats Strptime.fmt_Y_m_d (PyStr.strip s)
      else None
  end.

(** The formats [_parse_timestamp] tries, in its order. *)
Definition timestamp_formats : list Strptime.format :=
  [Strptime.fmt_Y_m_d_H_M_S; Strptime.fmt_Y_m_d].

(** [_parse_timestamp(timestamp_str)] *)
Definition _parse_timestamp (timestamp_str : option string) : option string :=
  match timestamp_str with
  | None => None
  | Some s =>
      if PyStr.truthy s
      then first_format timestamp_formats Strptime.fmt_Y_m_d_H_M_S (PyStr.strip s)
      else None
  end.

(** [_parse_boolean(bool_str)] *)
Definition _parse_boolean (bool_str : option string) : option bool :=
  match bool_str with
  | None => None
  | Some s =>
      if PyStr.truthy s
      then Some (PyStr.mem (PyStr.lower (PyStr.strip s)) ["true"; "1"; "yes"])
      else None
  end.

(** One turn of the loop that fills [vo_chong_map]. *)
Definition add_vo_chong (vo_chong_map : gmap string VoChong.t)
           (vo_chong : Element) : gmap string VoChong.t :=
  match _get_text (Some vo_chong) "voChongID" None with
  | Some vo_chong_id =>
      if PyStr.truthy vo_chong_id
      then <[vo_chong_id :=
               VoChong.mk (Some vo_chong_id)
                          (_get_text (Some vo_chong) "voID" None)
                          (_get_text (Some vo_chong) "chongID" None)]> vo_chong_map
      else vo_chong_map
  | None => vo_chong_map
  end.

(** The dict [vo_chong_map] of [extract_thuadat_data]. *)
Definition build_vo_chong_map (root : Element) : gmap string VoChong.t :=
  match find_desc root "VoChongCollection" with
  | Some vo_chong_collection =>
      if truth vo_chong_collection
      then List.fold_left add_vo_chong (findall vo_chong_collection "VoChong") ∅
      else ∅
  | None => ∅
  end.

(** The initial [vo_chong_info]. *)
Definition no_vo_chong : VoChong.t := VoChong.mk None None None.

(** The loop over the [QuyenSuDungDat] nodes, left at the first node that
    names the parcel and a key of [vo_chong_map]. *)
Fixpoint find_vo_chong (vo_chong_map : gmap string VoChong.t)
         (thua_dat_id : string) (nodes : list Element) : VoChong.t :=
  match nodes with
  | [] => no_vo_chong
  | quyen_su_dung_dat :: nodes' =>
      if PyStr.oeqb (_get_text (Some quyen_su_dung_dat) "thuaDatID" None) thua_dat_id
      then
        match _get_text (Some quyen_su_dung_dat) "doiTuongID" None with
        | Some doi_tuong_id =>
            if PyStr.truthy doi_tuong_id
            then match vo_chong_map !! doi_tuong_id with
                 | Some info => info
                 | None => find_vo_chong vo_chong_map thua_dat_id nodes'
                 end
            else find_vo_chong vo_chong_map thua_dat_id nodes'
        | None => find_vo_chong vo_chong_map thua_dat_id nodes'
        end
      else find_vo_chong vo_chong_map thua_dat_id nodes'
  end.

(** The body of the loop over the [DC_ThuaDat] nodes: the record of one
    node, [None] when the node is passed over. *)
Definition thuadat_of (root : Element) (vo_chong_map : gmap string VoChong.t)
           (thua_dat : Element) : option ThuaDat.t :=
  match _get_text (Some thua_dat) "thuaDatID" None with
  | Some thua_dat_id =>
      if PyStr.truthy thua_dat_id then
        let vo_chong_info :=
          find_vo_chong vo_chong_map thua_dat_id (findall_desc root "QuyenSuDungDat") in
        Some (ThuaDat.mk
                thua_dat_id
                (_get_text (Some thua_dat) "maDVHCXa" None)
                (_get_text (Some thua_dat) "soHieuToBanDo" None)
                (_get_text (Some thua_dat) "soThuTuThua" None)
                (_get_text (Some thua_dat) "dienTich" None)
                (_get_text (Some thua_dat) "dienTichPhapLy" None)
                (_get_text (Some thua_dat) "diaChiID" None)
                (VoChong.voChongID vo_chong_info)
                (VoChong.voID vo_chong_info)
                (VoChong.chongID vo_chong_info)
                (_get_text (Some thua_dat) "phanLoaiDuLieu" None)
                (_get_text (Some thua_dat) "trangThaiDangKy" None)
                (_parse_boolean (_get_text (Some thua_dat) "hieuLuc" (Some "true")))
                (_get_text (Some thua_dat) "phienBan" None))
      else None
  | None => None
  end.

(** [extract_thuadat_data()] *)
Definition extract_thuadat_data (root : Element) : list ThuaDat.t :=
  let vo_chong_map := build_vo_chong_map root in
  match find_desc root "ThuaDatCollection" with
  | Some thua_dat_collection =>
      if truth thua_dat_collection
      then omap (thuadat_of root vo_chong_map)
                (findall thua_dat_collection "DC_ThuaDat")
      else []
  | None => []
  end.

(** The initial [giay_to_info]. *)
Definition no_giay_to : GiayTo.t :=
  GiayTo.mk None None None None None None None None.

(** The [giay_to_info] read from one [GiayToTuyThan] node. *)
Definition giay_to_fields (giay_to : Element) : GiayTo.t :=
  GiayTo.mk
    (_get_text (Some giay_to) "giayToTuyThanID" None)
    (_get_text (Some giay_to) "tenLoaiGiayToTuyThan" None)
    (_parse_date (_get_text (Some giay_to) "ngayCap" (Some EmptyString)))
    (_get_text (Some giay_to) "noiCap" None)
    (_get_text (Some giay_to) "maDinhDanhCaNhan" None)
    (_parse_boolean (_get_text (Some giay_to) "hieuLuc" (Some EmptyString)))
    (_get_text (Some giay_to) "soGiayTo" None)
    (_get_text (Some giay_to) "loaiGiayToTuyThan" None).

(** The [giay_to_info] of a [CaNhan] node. *)
Definition giay_to_info_of (ca_nhan : Element) : GiayTo.t :=
  match find ca_nhan "GiayToTuyThanCollection" with
  | Some giay_to_collection =>
      if truth giay_to_collection then
        match find giay_to_collection "GiayToTuyThan" with
        | Some giay_to => giay_to_fields giay_to
        | None => no_giay_to
        end
      else no_giay_to
  | None => no_giay_to
  end.

(** The body of the loop over the [CaNhan] nodes. *)
Definition canhan_of (ca_nhan : Element) : option CaNhan.t :=
  match _get_text (Some ca_nhan) "caNhanID" None with
  | Some ca_nhan_id =>
      if PyStr.truthy ca_nhan_id then
        let giay_to_info := giay_to_info_of ca_nhan in
        Some (CaNhan.mk
                ca_nhan_id
                (_get_text (Some ca_nhan) "hoTen" None)
                (_get_text (Some ca_nhan) "namSinh" None)
                (_get_text (Some ca_nhan) "diaChiID" None)
                (_get_text (Some ca_nhan) "gioiTinh" None)
                (_get_text (Some ca_nhan) "phienBan" None)
                (GiayTo.giayToTuyThanID giay_to_info)
                (GiayTo.tenLoaiGiayToTuyThan giay_to_info)
                (GiayTo.ngayCap giay_to_info)
                (GiayTo.noiCap giay_to_info)
                (GiayTo.maDinhDanhCaNhan giay_to_info)
                (GiayTo.hieuLuc giay_to_info)
                (GiayTo.soGiayTo giay_to_info)
                (GiayTo.loaiGiayToTuyThan giay_to_info))
      else None
  | None => None
  end.

(** [extract_canhan_data()] *)
Definition extract_canhan_data (root : Element) : list CaNhan.t :=
  match find_desc root "CaNhanCollection" with
  | Some ca_nhan_collection =>
      if truth ca_nhan_collection
      then omap canhan_of (findall ca_nhan_collection "CaNhan")
      else []
  | None => []
  end.

(** The body of the loop over the [GiayChungNhan] nodes. *)
Definition giaychungnhan_of (gcn : Element) : option GiayChungNhan.t :=
  match _get_text (Some gcn) "giayChungNhanID" None with
  | Some gcn_id =>
      if PyStr.truthy gcn_id then
        Some (GiayChungNhan.mk
                gcn_id
                (_get_text (Some gcn) "soVaoSo" None)
                (_get_text (Some gcn) "soPhatHanh" None)
                (_get_text (Some gcn) "MaGiayChungNhan" None)
                (_parse_timestamp (_get_text (Some gcn) "ngayCap" (Some EmptyString)))
                (_get_text (Some gcn) "maVach" None)
                (_get_text (Some gcn) "nguoiKy" None)
                (_get_text (Some gcn) "soVaoSoCu" None))
      else None
  | None => None
  end.

(** [extract_giaychungnhan_data()] *)
Definition extract_giaychungnhan_data (root : Element) : list GiayChungNhan.t :=
  match find_desc root "GiayChungNhanCollection" with
  | Some gcn_collection =>
      if truth gcn_collection
      then omap giaychungnhan_of (findall gcn_collection "GiayChungNhan")
      else []
  | None => []
  end.

(** The body of the inner loop of [extract_hoso_data], over the
    [ThanhPhanHoSoDangKyDatDai] nodes of one case. *)
Definition thanh_phan_of (hoso_id gcn_id ma_hoso_luu_tru ma_dvhc_xa : option string)
           (thanh_phan : Element) : option HoSo.t :=
  match _get_text (Some thanh_phan) "thanhPhanHoSoID" None with
  | Some thanh_phan_id =>
      if PyStr.truthy thanh_phan_id then
        Some (HoSo.mk
                thanh_phan_id
                hoso_id
                gcn_id
                (_get_text (Some thanh_phan) "loaiGiayTo" None)
                (_get_text (Some thanh_phan) "tepTin" None)
                (_get_text (Some thanh_phan) "url" None)
                ma_hoso_luu_tru
                ma_dvhc_xa)
      else None
  | None => None
  end.

(** The body of the outer loop of [extract_hoso_data]: the records of one
    [HoSoDangKyDatDai] node. *)
Definition hoso_of (hoso : Element) : list HoSo.t :=
  let hoso_id := _get_text (Some hoso) "hoSoDangKySoID" None in
  let gcn_id := _get_text (Some hoso) "giayChungNhanID" None in
  let ma_hoso_luu_tru := _get_text (Some hoso) "maHoSoLuuTru" None in
  let ma_dvhc_xa := _get_text (Some hoso) "maDVHCXa" None in
  match find hoso "ThanhPhanHoSoDangKyDatDaiCollection" with
  | Some thanh_phan_collection =>
      if truth thanh_phan_collection
      then omap (thanh_phan_of hoso_id gcn_id ma_hoso_luu_tru ma_dvhc_xa)
                (findall thanh_phan_collection "ThanhPhanHoSoDangKyDatDai")
      else []
  | None => []
  end.

(** [extract_hoso_data()] *)
Definition extract_hoso_data (root : Element) : list HoSo.t :=
  match find_desc root "HoSoDangKyDatDaiCollection" with
  | Some hoso_collection =>
      if truth hoso_collection
      then List.flat_map hoso_of (findall hoso_collection "HoSoDangKyDatDai")
      else []
  | None => []
  end.

End XMLParser.

(** ** The store, as the loader sees it through one psycopg2 connection *)

Module Pg.

(** The four tables, each keyed by its primary key. *)
Record db : Type :=
  mkDb { thuadat : gmap string ThuaDat.t;
         canhan : gmap string CaNhan.t;
         giaychungnhan : gmap string GiayChungNhan.t;
         hoso : gmap string HoSo.t }.

Definition empty_db : db := mkDb ∅ ∅ ∅ ∅.

(** The argument of one [INSERT] statement. *)
Inductive row : Type :=
| RThuaDat (r : ThuaDat.t)
| RCaNhan (r : CaNhan.t)
| RGiayChungNhan (r : GiayChungNhan.t)
| RHoSo (r : HoSo.t).

(** What the connection was asked to do and what was printed, in order. *)
Inductive event : Type :=
| EvExecuteBatch (argslist : list row)
| EvSelect (ids : gset string)
| EvRollback
| EvCommit
| EvPrint (msg : string).

(** A connection with its cursor.  [committed] is the durable state,
    [working] the state inside the open transaction, [aborted] tells that a
    statement of the transaction has failed (every further statement then
    fails until the transaction ends), [rowcount] is [cursor.rowcount].
    [faults] schedules the failures that do not come from the tables (a
    value the column type rejects, a time-out): each statement that reaches
    the server takes the next entry, [true] making it fail. *)
Record conn : Type :=
  mkConn { committed : db;
           working : db;
           aborted : bool;
           faults : list bool;
           rowcount : Z;
           log : list event }.

(** [psycopg2.connect] followed by [conn.cursor()]. *)
Definition connect (store : db) (fs : list bool) : conn :=
  mkConn store store false fs (-1) [].

Definition record_event (ev : event) (c : conn) : conn :=
  mkConn (committed c) (working c) (aborted c) (faults c) (rowcount c)
         (log c ++ [ev]).

(** [print(msg)] *)
Definition print (msg : string) (c : conn) : conn := record_event (EvPrint msg) c.

(** The result of a call that may raise. *)
Inductive outcome (A : Type) : Type :=
| Returned (a : A)
| Raised.
Arguments Returned {A} a.
Arguments Raised {A}.

(** A foreign key is satisfied by [NULL] and by a key of the referenced
    table. *)
Definition references {A : Type} (tbl : gmap string A) (fk : option string) : bool :=
  match fk with
  | None => true
  | Some k => match tbl !! k with Some _ => true | None => false end
  end.

(** One [INSERT ... ON CONFLICT (key) DO NOTHING] on a state of the tables. *)
Inductive verdict : Type :=
| Inserted (d : db)
| Conflict
| Violation.

Definition insert_or_skip (d : db) (r : row) : verdict :=
  match r with
  | RThuaDat t =>
      match thuadat d !! ThuaDat.thuaDatID t with
      | Some _ => Conflict
      | None =>
          if references (canhan d) (ThuaDat.voID t)
             && references (canhan d) (ThuaDat.chongID t)
          then Inserted (mkDb (<[ThuaDat.thuaDatID t := t]> (thuadat d))
                              (canhan d) (giaychungnhan d) (hoso d))
          else Violation
      end
  | RCaNhan p =>
      match canhan d !! CaNhan.caNhanID p with
      | Some _ => Conflict
      | None => Inserted (mkDb (thuadat d) (<[CaNhan.caNhanID p := p]> (canhan d))
                               (giaychungnhan d) (hoso d))
      end
  | RGiayChungNhan g =>
      match giaychungnhan d !! GiayChungNhan.giayChungNhanID g with
      | Some _ => Conflict
      | None => Inserted (mkDb (thuadat d) (canhan d)
                               (<[GiayChungNhan.giayChungNhanID g := g]> (giaychungnhan d))
                               (hoso d))
      end
  | RHoSo h =>
      match hoso d !! HoSo.thanhPhanHoSoID h with
      | Some _ => Conflict
      | None =>
          if references (giaychungnhan d) (HoSo.giayChungNhanID h)
          then Inserted (mkDb (thuadat d) (canhan d) (giaychungnhan d)
                              (<[HoSo.thanhPhanHoSoID h := h]> (hoso d)))
          else Violation
      end
  end.

(** The connection after a statement has failed on the server. *)
Definition fail (c : conn) (fs : list bool) : conn :=
  mkConn (committed c) (working c) true fs (rowcount c) (log c).

(** The next entry of the fault schedule and the rest of it. *)
Definition next_fault (fs : list bool) : bool * list bool :=
  match fs with
  | [] => (false, [])
  | b :: fs' => (b, fs')
  end.

(** One [INSERT] statement on the connection. *)
Definition execute_insert (c : conn) (r : row) : conn * outcome unit :=
  if aborted c then (c, Raised)
  else
    let (fault, fs) := next_fault (faults c) in
    if fault then (fail c fs, Raised)
    else
      match insert_or_skip (working c) r with
      | Inserted d =>
          (mkConn (committed c) d false fs 1 (log c), Returned tt)
      | Conflict =>
          (mkConn (committed c) (working c) false fs 0 (log c), Returned tt)
      | Violation => (fail c fs, Raised)
      end.

(** The statements of a batch, one after the other, up to the first that
    fails. *)
Fixpoint run_batch (c : conn) (argslist : list row) : conn * outcome unit :=
  match argslist with
  | [] => (c, Returned tt)
  | r :: argslist' =>
      match execute_insert c r with
      | (c', Returned _) => run_batch c' argslist'
      | (c', Raised) => (c', Raised)
      end
  end.

(** [execute_batch(cursor, insert_query, argslist, page_size=100)]: the
    statements are sent in pages, each page as one string of statements;
    afterwards [cursor.rowcount] is the count of the last statement. *)
Definition execute_batch (c : conn) (argslist : list row) : conn * outcome unit :=
  run_batch (record_event (EvExecuteBatch argslist) c) argslist.

(** [cursor.execute(check_query, ids)] and [cursor.fetchall()], the first
    column of the rows collected in a set: the keys of [giaychungnhan]
    among [ids]. *)
Definition select_giaychungnhan (c : conn) (ids : gset string)
  : conn * outcome (gset string) :=
  let c := record_event (EvSelect ids) c in
  if aborted c then (c, Raised)
  else
    let (fault, fs) := next_fault (faults c) in
    if fault then (fail c fs, Raised)
    else
      let found := filter (fun k => is_Some (giaychungnhan (working c) !! k)) ids in
      (mkConn (committed c) (working c) false fs (Z.of_nat (size found)) (log c),
       Returned found).

(** [conn.rollback()] *)
Definition rollback (c : conn) : conn :=
  mkConn (committed c) (committed c) false (faults c) (rowcount c)
         (log c ++ [EvRollback]).

(** [conn.commit()]; committing a failed transaction rolls it back. *)
Definition commit (c : conn) : conn :=
  let d := if aborted c then committed c else working c in
  mkConn d d false (faults c) (rowcount c) (log c ++ [EvCommit]).

End Pg.

(** ** The class [DatabaseInserter] *)

Module DatabaseInserter.

Import Pg.

(** [len(data_list)] *)
Definition len {A : Type} (l : list A) : Z := Z.of_nat (length l).

(** The [try] block shared by the four insert methods: the batch is
    executed once; on an exception the message is printed, the transaction
    is rolled back and the whole batch is counted as skipped. *)
Definition try_execute_batch (c : conn) (argslist : list row) (n : Z)
           (msg : string) : conn * (Z * Z) :=
  match execute_batch c argslist with
  | (c', Returned _) =>
      let inserted := rowcount c' in (c', (inserted, n - inserted))
  | (c', Raised) => (rollback (print msg c'), (0, n))
  end%Z.

(** [insert_thuadat(data_list)] *)
Definition insert_thuadat (c : conn) (data_list : list ThuaDat.t) : conn * (Z * Z) :=
  match data_list with
  | [] => (c, (0, 0)%Z)
  | _ :: _ =>
      try_execute_batch c (List.map RThuaDat data_list) (len data_list)
                        "Error inserting thuadat"
  end.

(** [insert_canhan(data_list)] *)
Definition insert_canhan (c : conn) (data_list : list CaNhan.t) : conn * (Z * Z) :=
  match data_list with
  | [] => (c, (0, 0)%Z)
  | _ :: _ =>
      try_execute_batch c (List.map RCaNhan data_list) (len data_list)
                        "Error inserting canhan"
  end.

(** [insert_giaychungnhan(data_list)] *)
Definition insert_giaychungnhan (c : conn) (data_list : list GiayChungNhan.t)
  : conn * (Z * Z) :=
  match data_list with
  | [] => (c, (0, 0)%Z)
  | _ :: _ =>
      try_execute_batch c (List.map RGiayChungNhan data_list) (len data_list)
                        "Error inserting giaychungnhan"
  end.

(** [d.get('giayChungNhanID')] when it is truthy. *)
Definition truthy_gcn_id (d : HoSo.t) : option string :=
  match HoSo.giayChungNhanID d with
  | Some g => if PyStr.truthy g then Some g else None
  | None => None
  end.

(** The set [unique_gcn_ids] of [insert_hoso]. *)
Definition unique_gcn_ids (data_list : list HoSo.t) : gset string :=
  list_to_set (omap truthy_gcn_id data_list).

(** The set [valid_gcn_ids] of [insert_hoso]: the ids the check query
    finds; the whole of [unique_gcn_ids] when the query raises, with a
    warning; empty when there is nothing to check. *)
Definition check_gcn_ids (c : conn) (unique : gset string) : conn * gset string :=
  if decide (unique = ∅) then (c, ∅)
  else
    match select_giaychungnhan c unique with
    | (c', Returned rows) => (c', rows)
    | (c', Raised) =>
        (print "Warning: Could not verify giayChungNhanID existence" c', unique)
    end.

(** The body of the loop that sets an invalid [giayChungNhanID] to [None]. *)
Definition validate (valid_gcn_ids : gset string) (data : HoSo.t) : HoSo.t :=
  match truthy_gcn_id data with
  | Some gcn_id =>
      if decide (gcn_id ∈ valid_gcn_ids) then data
      else HoSo.set_giayChungNhanID None data
  | None => data
  end.

(** [insert_hoso(data_list)]; the dicts of [data_list] are updated in
    place, so the list as the method leaves it is returned too. *)
Definition insert_hoso (c : conn) (data_list : list HoSo.t)
  : conn * list HoSo.t * (Z * Z) :=
  match data_list with
  | [] => (c, data_list, (0, 0)%Z)
  | _ :: _ =>
      let (c1, valid_gcn_ids) := check_gcn_ids c (unique_gcn_ids data_list) in
      let data_list' := List.map (validate valid_gcn_ids) data_list in
      let (c2, counts) :=
        try_execute_batch c1 (List.map RHoSo data_list') (len data_list')
                          "Error inserting hoso" in
      (c2, data_list', counts)
  end.

End DatabaseInserter.

(** ** The worker of [XMLToDBExtractor] *)

Module XMLToDBExtractor.

Import Pg DatabaseInserter.

(** The dict [file_stats]. *)
Record file_stats : Type :=
  mkStats { thuadat_inserted : Z; thuadat_skipped : Z;
            canhan_inserted : Z; canhan_skipped : Z;
            giaychungnhan_inserted : Z; giaychungnhan_skipped : Z;
            hoso_inserted : Z; hoso_skipped : Z }.

(** The load of [process_single_file_worker]: the four inserts in their
    order on one connection, then the commit. *)
Definition load_records (c : conn)
           (thuadat_data : list ThuaDat.t) (canhan_data : list CaNhan.t)
           (gcn_data : list GiayChungNhan.t) (hoso_data : list HoSo.t)
  : conn * file_stats :=
  let '(c, (cn_ins, cn_skip)) := insert_canhan c canhan_data in
  let '(c, (gcn_ins, gcn_skip)) := insert_giaychungnhan c gcn_data in
  let '(c, (td_ins, td_skip)) := insert_thuadat c thuadat_data in
  let '(c, _, (hs_ins, hs_skip)) := insert_hoso c hoso_data in
  let c := commit c in
  (c, mkStats td_ins td_skip cn_ins cn_skip gcn_ins gcn_skip hs_ins hs_skip).

(** [process_single_file_worker(xml_file)] for a file that parses to
    [root], on a fresh connection to [store]. *)
Definition process_single_file_worker (store : db) (fs : list bool)
           (root : ET.Element) : conn * file_stats :=
  load_records (connect store fs)
               (XMLParser.extract_thuadat_data root)
               (XMLParser.extract_canhan_data root)
               (XMLParser.extract_giaychungnhan_data root)
               (XMLParser.extract_hoso_data root).

End XMLToDBExtractor.

(** ** Notions the statements are written with *)

Module Notions.

Import ET XMLParser.

(** Every character of the string is white space. *)
Definition all_space (s : string) : bool :=
  forallb PyStr.isspace (list_ascii_of_string s).

(** [s] is [t] without its leading and trailing white space. *)
Definition trim_of (t s : string) : Prop :=
  exists pre post : string,
    t = pre +:+ s +:+ post /\ all_space pre = true /\ all_space post = true
    /\ PyStr.trimmed s.

(** What a field-text read returns according to the normalization rule
    "either no value or a non-empty trimmed string". *)
Definition normalized (r : option string) : Prop :=
  r = None \/ exists s : string, r = Some s /\ s <> EmptyString /\ PyStr.trimmed s.

(** The element has no child [tag], or the first such child has no text. *)
Definition no_text (e : Element) (tag : string) : Prop :=
  find e tag = None
  \/ exists child : Element,
      find e tag = Some child /\ (text child = None \/ text child = Some EmptyString).

(** The accepted spellings of "true". *)
Definition true_words : list string := ["true"; "1"; "yes"].

(** [fmt] is the first format of [fmts] that parses [s], and parses it to
    [dt]. *)
Definition first_success (fmts : list Strptime.format) (s : string)
           (fmt : Strptime.format) (dt : Strptime.datetime) : Prop :=
  exists before after : list Strptime.format,
    fmts = before ++ fmt :: after
    /\ Forall (fun f => Strptime.strptime s f = None) before
    /\ Strptime.strptime s fmt = Some dt.

(** The candidate formats of the date-only parser as a list of two:
    YYYY-MM-DD then DD/MM/YYYY. *)
Definition two_date_formats : list Strptime.format :=
  [Strptime.fmt_Y_m_d; Strptime.fmt_d_m_Y].

(** A usage-right node qualifies for a parcel: its parcel reference is the
    parcel's identifier and its subject reference is a key of the map. *)
Definition qualifies (m : gmap string VoChong.t) (thua_dat_id : string)
           (q : Element) : bool :=
  PyStr.oeqb (_get_text (Some q) "thuaDatID" None) thua_dat_id
  && match _get_text (Some q) "doiTuongID" None with
     | Some d => match m !! d with Some _ => true | None => false end
     | None => false
     end.

(** The owner-pair nodes the map is built from. *)
Definition vo_chong_nodes (root : Element) : list Element :=
  match find_desc root "VoChongCollection" with
  | Some c => findall c "VoChong"
  | None => []
  end.

(** The values of an owner-pair node. *)
Definition vo_chong_values (n : Element) : VoChong.t :=
  VoChong.mk (_get_text (Some n) "voChongID" None)
             (_get_text (Some n) "voID" None)
             (_get_text (Some n) "chongID" None).

(** Every entry of the map is read off an owner-pair node and sits under
    the node's own non-empty identifier. *)
Definition from_nodes (nodes : list Element) (m : gmap string VoChong.t) : Prop :=
  forall d O, m !! d = Some O ->
              PyStr.truthy d = true
              /\ exists n, In n nodes /\ O = vo_chong_values n
                           /\ VoChong.voChongID O = Some d.

(** The value the map gives for the subject reference of a node. *)
Definition owner_by (m : gmap string VoChong.t) (q : Element) : option VoChong.t :=
  match _get_text (Some q) "doiTuongID" None with
  | Some d => m !! d
  | None => None
  end.

(** The component children of a case node. *)
Definition components (hoso : Element) : list Element :=
  match find hoso "ThanhPhanHoSoDangKyDatDaiCollection" with
  | Some c => findall c "ThanhPhanHoSoDangKyDatDai"
  | None => []
  end.

(** The component identifier of a component node, when it has one. *)
Definition component_id (thanh_phan : Element) : option string :=
  match _get_text (Some thanh_phan) "thanhPhanHoSoID" None with
  | Some i => if PyStr.truthy i then Some i else None
  | None => None
  end.

(** A person node whose identity-document collection lists [d1] first and
    then [later]. *)
Definition person_node (t : string) (txt : option string)
           (pre : list Element) (ctxt : option string) (cpre : list Element)
           (d1 : Element) (later post : list Element) : Element :=
  mkElement t txt
    (pre ++ mkElement "GiayToTuyThanCollection" ctxt (cpre ++ d1 :: later) :: post).

(** A document with one parcel, one owner-pair and the usage-right node
    that links them. *)
Definition owned_parcel_doc : Element :=
  node "root"
    [node "ThuaDatCollection"
       [node "DC_ThuaDat" [leaf "thuaDatID" "P1"; leaf "hieuLuc" "1"]];
     node "VoChongCollection"
       [node "VoChong" [leaf "voChongID" "O1"; leaf "voID" "A"; leaf "chongID" "B"]];
     node "QuyenCollection"
       [node "QuyenSuDungDat" [leaf "thuaDatID" "P1"; leaf "doiTuongID" "O1"]]].

(** The record of the parcel of [owned_parcel_doc]. *)
Definition owned_parcel : ThuaDat.t :=
  ThuaDat.mk "P1" None None None None None None (Some "O1") (Some "A") (Some "B")
             None None (Some true) None.

(** The same document without the usage-right node. *)
Definition unowned_parcel_doc : Element :=
  node "root"
    [node "ThuaDatCollection"
       [node "DC_ThuaDat" [leaf "thuaDatID" "P1"; leaf "hieuLuc" "1"]];
     node "VoChongCollection"
       [node "VoChong" [leaf "voChongID" "O1"; leaf "voID" "A"; leaf "chongID" "B"]]].

(** The scenario of the specification: one parcel without owner, two
    persons, one certificate and one case with three components. *)
Definition scenario_doc : Element :=
  node "root"
    [node "ThuaDatCollection"
       [node "DC_ThuaDat" [leaf "thuaDatID" "P1"; leaf "dienTich" "120.5"]];
     node "CaNhanCollection"
       [node "CaNhan" [leaf "caNhanID" "A"; leaf "hoTen" "An"];
        node "CaNhan" [leaf "caNhanID" "B"; leaf "hoTen" "Binh"]];
     node "GiayChungNhanCollection"
       [node "GiayChungNhan" [leaf "giayChungNhanID" "G1"; leaf "ngayCap" "2020-03-15"]];
     node "HoSoDangKyDatDaiCollection"
       [node "HoSoDangKyDatDai"
          [leaf "hoSoDangKySoID" "H1"; leaf "giayChungNhanID" "G1";
           node "ThanhPhanHoSoDangKyDatDaiCollection"
             [node "ThanhPhanHoSoDangKyDatDai" [leaf "thanhPhanHoSoID" "T1"];
              node "ThanhPhanHoSoDangKyDatDai" [leaf "thanhPhanHoSoID" "T2"];
              node "ThanhPhanHoSoDangKyDatDai" [leaf "thanhPhanHoSoID" "T3"]]]]].

(** The store after the scenario document has been loaded into an empty
    store. *)
Definition scenario_store : Pg.db :=
  Pg.committed
    (fst (XMLToDBExtractor.process_single_file_worker Pg.empty_db [] scenario_doc)).

(** Two components of one batch: the first refers to the certificate G1 of
    the scenario, the second to a certificate G9 that is in no store. *)
Definition component_g1 : HoSo.t :=
  HoSo.mk "T8" (Some "H2") (Some "G1") None (Some "a.pdf") None None None.

Definition component_g9 : HoSo.t :=
  HoSo.mk "T9" (Some "H2") (Some "G9") None (Some "b.pdf") None None None.

(** Every row of [a] is a row of [b], with the same fields. *)
Definition db_incl (a b : Pg.db) : Prop :=
  Pg.thuadat a ⊆ Pg.thuadat b /\ Pg.canhan a ⊆ Pg.canhan b
  /\ Pg.giaychungnhan a ⊆ Pg.giaychungnhan b /\ Pg.hoso a ⊆ Pg.hoso b.

(** No entry of the fault schedule makes a statement fail. *)
Definition quiet (fs : list bool) : Prop := Forall (fun b => b = false) fs.


End Notions.

(** ** The class [ThreadSafeStats] *)

Module ThreadSafeStats.

(** [self.stats] as [__init__] builds it; the lock makes each method one
    step, and the model is the body of the method. *)
Definition init : gmap string Z :=
  <["files_processed" := 0%Z]>
    (<["files_failed" := 0%Z]>
       (<["thuadat_inserted" := 0%Z]>
          (<["thuadat_skipped" := 0%Z]>
             (<["canhan_inserted" := 0%Z]>
                (<["canhan_skipped" := 0%Z]>
                   (<["giaychungnhan_inserted" := 0%Z]>
                      (<["giaychungnhan_skipped" := 0%Z]>
                         (<["hoso_inserted" := 0%Z]>
                            (<["hoso_skipped" := 0%Z]> ∅))))))))).

(** [increment(key, value)] *)
Definition increment (key : string) (value : Z) (stats : gmap string Z)
  : gmap string Z :=
  match stats !! key with
  | Some v => <[key := (v + value)%Z]> stats
  | None => stats
  end.

(** [add_stats(stats_dict)]; [stats_dict.items()] is the list of the pairs of
    the dict in its order. *)
Definition add_stats (stats_dict : list (string * Z)) (stats : gmap string Z)
  : gmap string Z :=
  List.fold_left (fun s kv => increment (fst kv) (snd kv) s) stats_dict stats.

(** [reset()] *)
Definition reset (stats : gmap string Z) : gmap string Z :=
  (fun _ : Z => 0%Z) <$> stats.

End ThreadSafeStats.

(** ** The worker with its failure branches, and the loop of [run] *)

Module Worker.

Import Pg XMLToDBExtractor.

(** What one file brings to its worker: whether the connection can be
    opened, the tree the file parses to ([None] for a file that does not
    parse) and the fault schedule of the connection. *)
Record unit_of_work : Type :=
  mkUnit { connects : bool; parsed : option ET.Element; unit_faults : list bool }.

(** The items of the dict [file_stats], in the order of the literal. *)
Definition stats_items (s : file_stats) : list (string * Z) :=
  [("thuadat_inserted", thuadat_inserted s); ("thuadat_skipped", thuadat_skipped s);
   ("canhan_inserted", canhan_inserted s); ("canhan_skipped", canhan_skipped s);
   ("giaychungnhan_inserted", giaychungnhan_inserted s);
   ("giaychungnhan_skipped", giaychungnhan_skipped s);
   ("hoso_inserted", hoso_inserted s); ("hoso_skipped", hoso_skipped s)].

(** [process_single_file_worker(xml_file)] on the shared counters and the
    store: the counters and the store afterwards, and the pair the method
    returns (the empty dict is the empty list of items). *)
Definition process_single_file_worker (stats : gmap string Z) (store : db)
           (u : unit_of_work) : gmap string Z * db * (bool * list (string * Z)) :=
  if negb (connects u)
  then (ThreadSafeStats.increment "files_failed" 1 stats, store, (false, []))
  else
    match parsed u with
    | None => (ThreadSafeStats.increment "files_failed" 1 stats, store, (false, []))
    | Some root =>
        let (c, file_stats) :=
          XMLToDBExtractor.process_single_file_worker store (unit_faults u) root in
        (ThreadSafeStats.add_stats (stats_items file_stats)
           (ThreadSafeStats.increment "files_processed" 1 stats),
         committed c, (true, stats_items file_stats))
    end.

(** The files of one directory handled one after the other, as a pool of one
    worker thread does. *)
Fixpoint process_files (stats : gmap string Z) (store : db)
         (xml_files : list unit_of_work) : gmap string Z * db :=
  match xml_files with
  | [] => (stats, store)
  | u :: xml_files' =>
      let '(stats', store', _) := process_single_file_worker stats store u in
      process_files stats' store' xml_files'
  end.

End Worker.

Module Run.

(** The test [self.limit and self.limit > 0] of [run]. *)
Definition limited (limit : option Z) : bool :=
  match limit with
  | Some n => negb (n =? 0)%Z && (0 <? n)%Z
  | None => false
  end.

(** [len(xml_files)] *)
Definition len {A : Type} (l : list A) : Z := Z.of_nat (length l).

(** The number of files of a list whose worker returns success. *)
Definition successes {A : Type} (ok : A -> bool) (l : list A) : Z :=
  len (List.filter ok l).

(** The loop of [run] over the directories, each given by its list
    [xml_files]: the lists of files that are submitted to the pool, in
    order.  [ok] tells whether the worker of a file returns success;
    [files_processed_so_far] counts the successes of the directories done. *)
Fixpoint submitted {A : Type} (limit : option Z) (ok : A -> bool)
         (files_processed_so_far : Z) (xml_dirs : list (list A)) : list (list A) :=
  match xml_dirs with
  | [] => []
  | xml_files :: xml_dirs' =>
      match xml_files with
      | [] => submitted limit ok files_processed_so_far xml_dirs'
      | _ :: _ =>
          if limited limit then
            let remaining := (default 0%Z limit - files_processed_so_far)%Z in
            if (remaining <=? 0)%Z then []
            else
              let xml_files :=
                if (remaining <? len xml_files)%Z
                then firstn (Z.to_nat remaining) xml_files
                else xml_files in
              xml_files
                :: submitted limit ok
                     (files_processed_so_far + successes ok xml_files)%Z xml_dirs'
          else
            xml_files
              :: submitted limit ok
                   (files_processed_so_far + successes ok xml_files)%Z xml_dirs'
      end
  end.

End Run.

(** ** Further notions the statements are written with *)

Module Terms.

Import ET XMLParser Pg.

(** The identifier a node carries under [tag]: its trimmed text when that
    is not empty. *)
Definition id_of (tag : string) (e : Element) : option string :=
  match _get_text (Some e) tag None with
  | Some i => if PyStr.truthy i then Some i else None
  | None => None
  end.

(** The nodes [item] of the first collection [coll] of the document. *)
Definition collection_nodes (root : Element) (coll item : string) : list Element :=
  match find_desc root coll with
  | Some c => findall c item
  | None => []
  end.

(** The owner-pair node with identifier [d] that comes last. *)
Definition last_vo_chong (d : string) (nodes : list Element) : option Element :=
  List.find (fun n => PyStr.oeqb (_get_text (Some n) "voChongID" None) d)
            (List.rev nodes).



(** The first person of a batch with a given identifier. *)
Definition first_person (k : string) (l : list CaNhan.t) : option CaNhan.t :=
  List.find (fun p => String.eqb (CaNhan.caNhanID p) k) l.




(** The sum of the values a list of items gives for a key. *)
Definition total_for (k : string) (items : list (string * Z)) : Z :=
  List.fold_right (fun kv acc => if String.eqb (fst kv) k then (snd kv + acc)%Z else acc)
                  0%Z items.

(** A unit of work succeeds when its connection opens and its file parses. *)
Definition succeeds (u : Worker.unit_of_work) : bool :=
  Worker.connects u && match Worker.parsed u with Some _ => true | None => false end.

(** Two states of the counters agree on every key but [files_failed]. *)
Definition agree_but_failed (s1 s2 : gmap string Z) : Prop :=
  forall k, k <> "files_failed" -> s1 !! k = s2 !! k.

(** The successes among the files of several lists. *)
Definition total_successes {A : Type} (ok : A -> bool) (ls : list (list A)) : Z :=
  List.fold_right (fun l acc => (Run.successes ok l + acc)%Z) 0%Z ls.

(** The list has a file. *)
Definition nonempty {A : Type} (l : list A) : bool :=
  match l with
  | [] => false
  | _ :: _ => true
  end.


(** A row is neither the person [v] nor the parcel [k]. *)
Definition row_avoids (v k : string) (r : row) : Prop :=
  match r with
  | RCaNhan p => CaNhan.caNhanID p <> v
  | RThuaDat t => ThuaDat.thuaDatID t <> k
  | RGiayChungNhan _ | RHoSo _ => True
  end.

(** Two states of the tables with the same parcels, persons and
    certificates. *)
Definition same_but_hoso (a b : db) : Prop :=
  thuadat a = thuadat b /\ canhan a = canhan b /\ giaychungnhan a = giaychungnhan b.

(** A parcel whose owners are persons of no document. *)
Definition stray_parcel : ThuaDat.t :=
  ThuaDat.mk "P7" None None None None None None (Some "O7") (Some "Z1") (Some "Z2")
             None None (Some true) None.









End Terms.

(** * Properties of the text normalization *)

Section Text.

Import PyStr Notions.

Lemma lstrip_split (s : string) :
  exists pre, s = pre +:+ lstrip s /\ all_space pre = true.
Proof.
  induction s as [|c s IH]; simpl.
  - exists EmptyString. split; reflexivity.
  - destruct (isspace c) eqn:Hc.
    + destruct IH as (pre & Heq & Hpre).
      exists (String c pre). split.
      * exact (f_equal (String c) Heq).
      * unfold all_space. simpl. rewrite Hc. exact Hpre.
    + exists EmptyString. split; reflexivity.
Qed.

Lemma rstrip_split (s : string) :
  exists post, s = rstrip s +:+ post /\ all_space post = true.
Proof.
  induction s as [|c s IH]; simpl.
  - exists EmptyString. split; reflexivity.
  - destruct IH as (post & Heq & Hpost).
    destruct (rstrip s) as [|c' r] eqn:Hr.
    + destruct (isspace c) eqn:Hc.
      * exists (String c post). split.
        -- exact (f_equal (String c) Heq).
        -- unfold all_space. simpl. rewrite Hc. exact Hpost.
      * exists post. split; [|exact Hpost].
        exact (f_equal (String c) Heq).
    + exists post. split; [|exact Hpost].
      exact (f_equal (String c) Heq).
Qed.

Lemma lstrip_first (s : string) (c : ascii) :
  first_char (lstrip s) = Some c -> isspace c = false.
Proof.
  induction s as [|a s IH]; simpl; [discriminate|].
  destruct (isspace a) eqn:Ha; [exact IH|].
  simpl. intros [= <-]. exact Ha.
Qed.

Lemma rstrip_last (s : string) (c : ascii) :
  last_char (rstrip s) = Some c -> isspace c = false.
Proof.
  induction s as [|a s IH]; simpl; [discriminate|].
  destruct (rstrip s) as [|b r] eqn:Hr.
  - destruct (isspace a) eqn:Ha; simpl; [discriminate|].
    intros [= <-]. exact Ha.
  - simpl. exact IH.
Qed.

Lemma rstrip_first (s : string) :
  rstrip s <> EmptyString -> first_char (rstrip s) = first_char s.
Proof.
  destruct s as [|a s]; simpl; [reflexivity|].
  destruct (rstrip s); [destruct (isspace a)|]; simpl; congruence.
Qed.

Lemma has_ink_lstrip (s : string) : has_ink (lstrip s) = has_ink s.
Proof.
  unfold has_ink. induction s as [|a s IH]; simpl; [reflexivity|].
  destruct (isspace a) eqn:Ha; simpl; [exact IH|].
  rewrite Ha. reflexivity.
Qed.

Lemma rstrip_empty_iff (s : string) :
  rstrip s = EmptyString <-> has_ink s = false.
Proof.
  unfold has_ink. induction s as [|a s IH]; simpl; [tauto|].
  destruct (rstrip s) as [|b r] eqn:Hr.
  - destruct (isspace a) eqn:Ha; simpl.
    + tauto.
    + split; discriminate.
  - split; [discriminate|].
    intros H. apply orb_false_iff in H as [_ H].
    apply IH in H. discriminate.
Qed.

(** [strip] removes white space at both ends and nothing else. *)
Lemma strip_trim_of (s : string) : trim_of s (strip s).
Proof.
  unfold strip.
  destruct (lstrip_split s) as (pre & Hs & Hpre).
  destruct (rstrip_split (lstrip s)) as (post & Hl & Hpost).
  exists pre, post. repeat split; try assumption.
  - rewrite <- Hl. exact Hs.
  - intros c Hc.
    destruct (String.string_dec (rstrip (lstrip s)) EmptyString) as [E|E].
    + rewrite E in Hc. discriminate.
    + rewrite (rstrip_first _ E) in Hc. eapply lstrip_first, Hc.
  - apply rstrip_last.
Qed.

Lemma strip_nonempty (s : string) :
  has_ink s = true -> strip s <> EmptyString.
Proof.
  unfold strip. intros H E. apply rstrip_empty_iff in E.
  rewrite has_ink_lstrip in E. congruence.
Qed.

Lemma has_ink_truthy (s : string) : has_ink s = true -> truthy s = true.
Proof. destruct s; [discriminate|reflexivity]. Qed.

Lemma lstrip_id (s : string) :
  (forall c, first_char s = Some c -> isspace c = false) -> lstrip s = s.
Proof.
  destruct s as [|a s]; simpl; [reflexivity|].
  intros H. rewrite (H a eq_refl). reflexivity.
Qed.

Lemma rstrip_id (s : string) :
  (forall c, last_char s = Some c -> isspace c = false) -> rstrip s = s.
Proof.
  induction s as [|a s IH]; simpl; [reflexivity|].
  intros H. destruct s as [|b s].
  - simpl. rewrite (H a eq_refl). reflexivity.
  - rewrite IH by exact H. reflexivity.
Qed.

Lemma strip_idem (s : string) : strip (strip s) = strip s.
Proof.
  destruct (strip_trim_of s) as (_ & _ & _ & _ & _ & Hf & Hl).
  unfold strip at 1. rewrite (lstrip_id _ Hf). apply rstrip_id, Hl.
Qed.

Lemma strip_truthy (s : string) : has_ink s = true -> truthy (strip s) = true.
Proof.
  intros H. apply strip_nonempty in H. destruct (strip s); [congruence|reflexivity].
Qed.

End Text.

(** * Properties of the field readers *)

Section Readers.

Import PyStr ET Strptime XMLParser Notions.

Lemma get_text_default (e : Element) (tag : string) (default : option string) :
  no_text e tag -> _get_text (Some e) tag default = default.
Proof.
  unfold _get_text. intros [H | (child & H & [T | T])]; rewrite H; try rewrite T;
    reflexivity.
Qed.

Lemma get_text_ink (e : Element) (tag : string) (default : option string)
      (child : Element) (t : string) :
  find e tag = Some child -> text child = Some t -> has_ink t = true ->
  _get_text (Some e) tag default = Some (strip t).
Proof.
  intros H T I. unfold _get_text. rewrite H, T, (has_ink_truthy _ I). reflexivity.
Qed.

(** C6, as amended.  The text reader returns the caller's default (null
    unless the call passes another one) for a missing element and for an
    element without text, and for an element whose text holds a character
    that is not white space it returns that text without its leading and
    trailing white space, which is a non-empty string. *)
Theorem get_text_reads (e : Element) (tag : string) (default : option string) :
  (forall child t,
      find e tag = Some child -> text child = Some t -> has_ink t = true ->
      exists s, _get_text (Some e) tag default = Some s
                /\ s <> EmptyString /\ trim_of t s)
  /\ (no_text e tag -> _get_text (Some e) tag default = default)
  /\ _get_text None tag default = default.
Proof.
  split; [|split].
  - intros child t H T I. exists (strip t). split; [|split].
    + eapply get_text_ink; eassumption.
    + apply strip_nonempty, I.
    + apply strip_trim_of.
  - apply get_text_default.
  - reflexivity.
Qed.

Lemma get_text_reads_witness :
  exists s, _get_text (Some (node "CaNhan" [leaf "hoTen" "  Le Van An "])) "hoTen" None
            = Some s
            /\ s <> EmptyString /\ trim_of "  Le Van An " s.
Proof.
  apply (proj1 (get_text_reads (node "CaNhan" [leaf "hoTen" "  Le Van An "])
                               "hoTen" None)
               (leaf "hoTen" "  Le Van An ") "  Le Van An ");
    reflexivity.
Defined.

(** C6, as stated, fails: the read of a missing [ngayCap] with the default
    [''] of the call in [extract_canhan_data] returns the empty string, and
    so does the read of an element whose text is a single space. *)
Lemma get_text_empty_string :
  ~ normalized (_get_text (Some (node "GiayToTuyThan" [])) "ngayCap" (Some EmptyString))
  /\ ~ normalized (_get_text (Some (node "CaNhan" [leaf "hoTen" " "])) "hoTen" None).
Proof.
  split; intros [H | (s & H & Hs & _)]; vm_compute in H; try discriminate;
    injection H as <-; apply Hs; reflexivity.
Qed.

Lemma mem_In (x : string) (l : list string) : mem x l = true <-> In x l.
Proof.
  unfold mem. rewrite existsb_exists. split.
  - intros (y & Hy & E). apply String.eqb_eq in E. subst. exact Hy.
  - intros H. exists x. split; [exact H|apply String.eqb_refl].
Qed.

(** C5, as amended.  A boolean field whose text holds a character that is
    not white space is true when the text, trimmed and lowered, is "true",
    "1" or "yes", and false otherwise; an absent element (or one without
    text) gives null for the validity flag of an identity document and true
    for the validity flag of a parcel, which is read with the default
    'true'. *)
Theorem parse_boolean_fields :
  (forall s, truthy s = true ->
             exists b, _parse_boolean (Some s) = Some b
                       /\ (b = true <-> In (lower (strip s)) true_words))
  /\ _parse_boolean None = None
  /\ _parse_boolean (Some EmptyString) = None
  /\ (forall root m thua_dat r,
         thuadat_of root m thua_dat = Some r ->
         (no_text thua_dat "hieuLuc" -> ThuaDat.hieuLuc r = Some true)
         /\ (forall child t,
                find thua_dat "hieuLuc" = Some child -> text child = Some t ->
                has_ink t = true ->
                ThuaDat.hieuLuc r = Some (mem (lower (strip t)) true_words)))
  /\ (forall giay_to,
         (no_text giay_to "hieuLuc" ->
          GiayTo.hieuLuc (giay_to_fields giay_to) = None)
         /\ (forall child t,
                find giay_to "hieuLuc" = Some child -> text child = Some t ->
                has_ink t = true ->
                GiayTo.hieuLuc (giay_to_fields giay_to)
                = Some (mem (lower (strip t)) true_words))).
Proof.
  split; [|split; [|split; [|split]]]; try reflexivity.
  - intros s Hs. exists (mem (lower (strip s)) true_words). split.
    + unfold _parse_boolean. rewrite Hs. reflexivity.
    + apply mem_In.
  - intros root m thua_dat r Hr. unfold thuadat_of in Hr.
    destruct (_get_text (Some thua_dat) "thuaDatID" None) as [i|]; [|discriminate].
    destruct (truthy i); [|discriminate].
    injection Hr as <-. cbn [ThuaDat.hieuLuc]. split.
    + intros H. rewrite (get_text_default _ _ _ H). reflexivity.
    + intros child t H T I. rewrite (get_text_ink _ _ _ _ _ H T I).
      unfold _parse_boolean. rewrite (strip_truthy _ I), strip_idem. reflexivity.
  - intros giay_to. cbn [giay_to_fields GiayTo.hieuLuc]. split.
    + intros H. rewrite (get_text_default _ _ _ H). reflexivity.
    + intros child t H T I. rewrite (get_text_ink _ _ _ _ _ H T I).
      unfold _parse_boolean. rewrite (strip_truthy _ I), strip_idem. reflexivity.
Qed.

Lemma parse_boolean_fields_witness :
  exists b, _parse_boolean (Some " YES ") = Some b
            /\ (b = true <-> In (lower (strip " YES ")) true_words).
Proof. apply (proj1 parse_boolean_fields " YES "). reflexivity. Defined.

(** C5, as stated, fails: a parcel node without a [hieuLuc] element is
    extracted with the validity flag true, not null. *)
Lemma parcel_flag_defaults_true :
  let thua_dat := node "DC_ThuaDat" [leaf "thuaDatID" "P1"] in
  let root := node "root" [node "ThuaDatCollection" [thua_dat]] in
  find thua_dat "hieuLuc" = None
  /\ List.map ThuaDat.hieuLuc (extract_thuadat_data root) = [Some true]
  /\ List.map ThuaDat.hieuLuc (extract_thuadat_data root) <> [None].
Proof. vm_compute. repeat split; discriminate. Qed.

Lemma first_format_some (fmts : list format) (out : format) (s r : string) :
  first_format fmts out s = Some r
  <-> exists fmt dt, first_success fmts s fmt dt /\ r = strftime dt out.
Proof.
  induction fmts as [|f fmts IH]; simpl.
  - split; [discriminate|].
    intros (fmt & dt & (before & after & E & _) & _).
    destruct before; discriminate.
  - destruct (strptime s f) as [dt|] eqn:Hf.
    + split.
      * intros [= <-]. exists f, dt. split; [|reflexivity].
        exists [], fmts. repeat split; [constructor|exact Hf].
      * intros (fmt & dt' & (before & after & E & Hb & Hs) & ->).
        destruct before as [|f' before]; simpl in E; injection E as -> ->.
        -- congruence.
        -- inversion Hb; congruence.
    + rewrite IH. split.
      * intros (fmt & dt & (before & after & -> & Hb & Hs) & ->).
        exists fmt, dt. split; [|reflexivity].
        exists (f :: before), after. repeat split; [constructor|]; assumption.
      * intros (fmt & dt & (before & after & E & Hb & Hs) & ->).
        destruct before as [|f' before]; simpl in E; injection E as -> ->.
        -- congruence.
        -- exists fmt, dt. split; [|reflexivity].
           exists before, after. inversion Hb. repeat split; assumption.
Qed.

Lemma first_format_none (fmts : list format) (out : format) (s : string) :
  first_format fmts out s = None <-> Forall (fun f => strptime s f = None) fmts.
Proof.
  induction fmts as [|f fmts IH]; simpl.
  - split; [constructor|reflexivity].
  - destruct (strptime s f) as [dt|] eqn:Hf.
    + split; [discriminate|]. intros H. inversion H; congruence.
    + rewrite IH. split.
      * intros H. constructor; assumption.
      * intros H. inversion H; assumption.
Qed.

(** C7, as amended.  The date-only parser tries the formats YYYY-MM-DD,
    YYYY-MM-DD HH:MM:SS and DD/MM/YYYY in that order, the timestamp parser
    YYYY-MM-DD HH:MM:SS then YYYY-MM-DD; the first format that parses the
    trimmed text gives the result, a text no format parses gives null, and
    "15/03/2020" parses to the value of "2020-03-15". *)
Theorem parse_date_formats (s : string) :
  date_formats = [fmt_Y_m_d; fmt_Y_m_d_H_M_S; fmt_d_m_Y]
  /\ timestamp_formats = [fmt_Y_m_d_H_M_S; fmt_Y_m_d]
  /\ (forall r, _parse_date (Some s) = Some r
                <-> truthy s = true
                    /\ exists fmt dt, first_success date_formats (strip s) fmt dt
                                      /\ r = strftime dt fmt_Y_m_d)
  /\ (_parse_date (Some s) = None
      <-> truthy s = false
          \/ Forall (fun f => strptime (strip s) f = None) date_formats)
  /\ (forall r, _parse_timestamp (Some s) = Some r
                <-> truthy s = true
                    /\ exists fmt dt, first_success timestamp_formats (strip s) fmt dt
                                      /\ r = strftime dt fmt_Y_m_d_H_M_S)
  /\ (_parse_timestamp (Some s) = None
      <-> truthy s = false
          \/ Forall (fun f => strptime (strip s) f = None) timestamp_formats)
  /\ _parse_date (Some "15/03/2020") = _parse_date (Some "2020-03-15")
  /\ _parse_date (Some "2020-03-15") = Some "2020-03-15"
  /\ _parse_date (Some "not-a-date") = None
  /\ _parse_date None = None /\ _parse_timestamp None = None.
Proof.
  repeat match goal with |- _ /\ _ => split end; try reflexivity.
  - intros r. unfold _parse_date. destruct (truthy s).
    + rewrite first_format_some. tauto.
    + split; [discriminate|]. intros [H _]. discriminate.
  - unfold _parse_date. destruct (truthy s).
    + rewrite first_format_none. split; [tauto|]. intros [H|H]; [discriminate|exact H].
    + tauto.
  - intros r. unfold _parse_timestamp. destruct (truthy s).
    + rewrite first_format_some. tauto.
    + split; [discriminate|]. intros [H _]. discriminate.
  - unfold _parse_timestamp. destruct (truthy s).
    + rewrite first_format_none. split; [tauto|]. intros [H|H]; [discriminate|exact H].
    + tauto.
Qed.

Lemma parse_date_formats_witness :
  _parse_timestamp (Some " 2020-03-15 ") = Some "2020-03-15 00:00:00".
Proof.
  apply (proj1 (proj2 (proj2 (proj2 (proj2 (parse_date_formats " 2020-03-15 ")))))).
  split; [reflexivity|].
  exists fmt_Y_m_d, (mkDatetime 2020 3 15 0 0 0). split; [|reflexivity].
  exists [fmt_Y_m_d_H_M_S], []. repeat split.
  constructor; [reflexivity|constructor].
Defined.

(** C7, as stated, fails: a text in the form YYYY-MM-DD HH:MM:SS is in
    neither of the two formats YYYY-MM-DD and DD/MM/YYYY, and the date-only
    parser returns its date instead of null. *)
Lemma parse_date_third_format :
  Forall (fun f => strptime (strip "2020-03-15 10:20:30") f = None) two_date_formats
  /\ _parse_date (Some "2020-03-15 10:20:30") = Some "2020-03-15"
  /\ _parse_date (Some "2020-03-15 10:20:30")
     <> first_format two_date_formats fmt_Y_m_d (strip "2020-03-15 10:20:30").
Proof.
  split; [|split].
  - repeat constructor.
  - reflexivity.
  - vm_compute. discriminate.
Qed.

End Readers.

(** * Properties of the extraction *)

Section Extraction.

Import PyStr ET XMLParser Notions.

Lemma add_vo_chong_from_nodes (all : list Element) (m : gmap string VoChong.t)
      (n : Element) :
  In n all -> from_nodes all m -> from_nodes all (add_vo_chong m n).
Proof.
  intros Hn Hm d O. unfold add_vo_chong.
  destruct (_get_text (Some n) "voChongID" None) as [i|] eqn:Hi; [|apply Hm].
  destruct (truthy i) eqn:Ht; [|apply Hm].
  destruct (decide (i = d)) as [->|Hne].
  - rewrite lookup_insert_eq. intros [= <-]. split; [exact Ht|].
    exists n. unfold vo_chong_values. rewrite Hi. repeat split. exact Hn.
  - rewrite lookup_insert_ne by exact Hne. apply Hm.
Qed.

Lemma fold_add_vo_chong_from_nodes (all nodes : list Element)
      (m : gmap string VoChong.t) :
  incl nodes all -> from_nodes all m ->
  from_nodes all (List.fold_left add_vo_chong nodes m).
Proof.
  revert m. induction nodes as [|n nodes IH]; intros m Hi Hm; simpl; [exact Hm|].
  apply IH.
  - intros x Hx. apply Hi. right. exact Hx.
  - apply add_vo_chong_from_nodes; [|exact Hm]. apply Hi. left. reflexivity.
Qed.

Lemma build_vo_chong_map_from_nodes (root : Element) :
  from_nodes (vo_chong_nodes root) (build_vo_chong_map root).
Proof.
  unfold build_vo_chong_map, vo_chong_nodes.
  destruct (find_desc root "VoChongCollection") as [c|].
  - destruct (truth c).
    + apply fold_add_vo_chong_from_nodes; [apply incl_refl|].
      intros d O H. rewrite lookup_empty in H. discriminate.
    + intros d O H. rewrite lookup_empty in H. discriminate.
  - intros d O H. rewrite lookup_empty in H. discriminate.
Qed.

(** The loop with its [break] returns the value of the first qualifying
    node. *)
Lemma find_vo_chong_step (m : gmap string VoChong.t) (i : string)
      (q : Element) (nodes : list Element) :
  (forall d O, m !! d = Some O -> truthy d = true) ->
  (qualifies m i q = true
   /\ owner_by m q = Some (find_vo_chong m i (q :: nodes)))
  \/ (qualifies m i q = false
      /\ find_vo_chong m i (q :: nodes) = find_vo_chong m i nodes).
Proof.
  intros Hm. unfold qualifies, owner_by. simpl.
  destruct (oeqb (_get_text (Some q) "thuaDatID" None) i); simpl; [|right; tauto].
  destruct (_get_text (Some q) "doiTuongID" None) as [d|]; [|right; tauto].
  destruct (m !! d) as [O|] eqn:HO.
  - left. rewrite (Hm _ _ HO). tauto.
  - right. destruct (truthy d); tauto.
Qed.

(** The loop with its [break] returns the value of the first qualifying
    node. *)
Lemma find_vo_chong_first (m : gmap string VoChong.t) (i : string)
      (nodes : list Element) :
  (forall d O, m !! d = Some O -> truthy d = true) ->
  match List.filter (qualifies m i) nodes with
  | [] => find_vo_chong m i nodes = no_vo_chong
  | q :: _ => owner_by m q = Some (find_vo_chong m i nodes)
  end.
Proof.
  intros Hm. induction nodes as [|q nodes IH]; [reflexivity|].
  cbn [List.filter].
  destruct (find_vo_chong_step m i q nodes Hm) as [[Hq Ho] | [Hq Ho]]; rewrite Hq.
  - exact Ho.
  - rewrite Ho. exact IH.
Qed.

Lemma extract_thuadat_data_In (root : Element) (r : ThuaDat.t) :
  In r (extract_thuadat_data root) ->
  exists c thua_dat,
    find_desc root "ThuaDatCollection" = Some c
    /\ In thua_dat (findall c "DC_ThuaDat")
    /\ thuadat_of root (build_vo_chong_map root) thua_dat = Some r.
Proof.
  unfold extract_thuadat_data.
  destruct (find_desc root "ThuaDatCollection") as [c|]; [|intros []].
  destruct (truth c); [|intros []].
  intros H. apply list_elem_of_In, list_elem_of_omap in H as (x & Hx & Hr).
  exists c, x. repeat split; [apply list_elem_of_In, Hx|exact Hr].
Qed.

Lemma thuadat_of_owner (root : Element) (m : gmap string VoChong.t)
      (thua_dat : Element) (r : ThuaDat.t) :
  thuadat_of root m thua_dat = Some r ->
  _get_text (Some thua_dat) "thuaDatID" None = Some (ThuaDat.thuaDatID r)
  /\ ThuaDat.owner r
     = find_vo_chong m (ThuaDat.thuaDatID r) (findall_desc root "QuyenSuDungDat").
Proof.
  unfold thuadat_of.
  destruct (_get_text (Some thua_dat) "thuaDatID" None) as [i|]; [|discriminate].
  destruct (truthy i); [|discriminate].
  intros [= <-]. unfold ThuaDat.owner. cbn [ThuaDat.thuaDatID ThuaDat.voChongID
    ThuaDat.voID ThuaDat.chongID]. split; [reflexivity|].
  destruct (find_vo_chong _ _ _). reflexivity.
Qed.

(** C1.  A parcel record carries the values of an owner-pair of the map
    exactly when some usage-right node of the document names the parcel's
    identifier and a key of the map; the first such node in document order
    gives the owner-pair, and without such a node the three owner fields
    are null. *)
Theorem parcel_owner_resolution (root : Element) (r : ThuaDat.t) :
  In r (extract_thuadat_data root) ->
  let m := build_vo_chong_map root in
  let nodes := findall_desc root "QuyenSuDungDat" in
  match List.filter (qualifies m (ThuaDat.thuaDatID r)) nodes with
  | [] => ThuaDat.owner r = no_vo_chong
  | q :: _ => owner_by m q = Some (ThuaDat.owner r)
  end
  /\ ((exists q, In q nodes /\ qualifies m (ThuaDat.thuaDatID r) q = true)
      <-> exists d O, m !! d = Some O /\ ThuaDat.owner r = O)
  /\ (forall d O, m !! d = Some O ->
                  exists n, In n (vo_chong_nodes root)
                            /\ O = vo_chong_values n
                            /\ VoChong.voChongID O = Some d).
Proof.
  intros Hr m nodes.
  destruct (extract_thuadat_data_In _ _ Hr) as (c & thua_dat & _ & _ & Hof).
  destruct (thuadat_of_owner _ _ _ _ Hof) as [_ Ho].
  fold m nodes in Ho.
  pose proof (build_vo_chong_map_from_nodes root) as Hm. fold m in Hm.
  assert (Hk : forall d O, m !! d = Some O -> truthy d = true)
    by (intros d O H; apply (Hm d O H)).
  pose proof (find_vo_chong_first m (ThuaDat.thuaDatID r) nodes Hk) as Hf.
  rewrite <- Ho in Hf.
  split; [exact Hf|split].
  - destruct (List.filter (qualifies m (ThuaDat.thuaDatID r)) nodes) as [|q l] eqn:E.
    + split.
      * intros (q & Hq & Hq'). exfalso.
        assert (In q []) as []. rewrite <- E. apply filter_In. split; assumption.
      * intros (d & O & HO & <-). apply Hm in HO as (_ & n & _ & _ & Hid).
        rewrite Hf in Hid. discriminate.
    + split.
      * intros _. unfold owner_by in Hf.
        destruct (_get_text (Some q) "doiTuongID" None) as [d|]; [|discriminate].
        exists d, (ThuaDat.owner r). split; [exact Hf|reflexivity].
      * intros _. exists q. apply filter_In. rewrite E. left. reflexivity.
  - intros d O HO. apply Hm in HO as (_ & H). exact H.
Qed.

Lemma parcel_owner_resolution_witness :
  let m := build_vo_chong_map owned_parcel_doc in
  let nodes := findall_desc owned_parcel_doc "QuyenSuDungDat" in
  match List.filter (qualifies m (ThuaDat.thuaDatID owned_parcel)) nodes with
  | [] => ThuaDat.owner owned_parcel = no_vo_chong
  | q :: _ => owner_by m q = Some (ThuaDat.owner owned_parcel)
  end
  /\ ((exists q, In q nodes /\ qualifies m (ThuaDat.thuaDatID owned_parcel) q = true)
      <-> exists d O, m !! d = Some O /\ ThuaDat.owner owned_parcel = O)
  /\ (forall d O, m !! d = Some O ->
                  exists n, In n (vo_chong_nodes owned_parcel_doc)
                            /\ O = vo_chong_values n
                            /\ VoChong.voChongID O = Some d).
Proof.
  apply (parcel_owner_resolution owned_parcel_doc owned_parcel).
  vm_compute. left. reflexivity.
Defined.

(** The scenario of the specification: with the usage-right node the owner
    fields are (O1, A, B), without it they are null. *)
Example owner_fields_with_and_without_link :
  List.map ThuaDat.owner (extract_thuadat_data owned_parcel_doc)
  = [VoChong.mk (Some "O1") (Some "A") (Some "B")]
  /\ List.map ThuaDat.owner (extract_thuadat_data unowned_parcel_doc) = [no_vo_chong].
Proof. split; vm_compute; reflexivity. Qed.

Lemma find_skip {A : Type} (f : A -> bool) (pre : list A) (x : A) (post : list A) :
  Forall (fun e => f e = false) pre ->
  List.find f (pre ++ x :: post) = if f x then Some x else List.find f post.
Proof.
  induction 1 as [|e pre He _ IH]; simpl; [reflexivity|].
  rewrite He. exact IH.
Qed.

Lemma find_replace {A : Type} (f : A -> bool) (pre : list A) (x x' : A)
      (post : list A) :
  f x = false -> f x' = false ->
  List.find f (pre ++ x :: post) = List.find f (pre ++ x' :: post).
Proof.
  intros Hx Hx'. induction pre as [|e pre IH]; simpl.
  - rewrite Hx, Hx'. reflexivity.
  - rewrite IH. reflexivity.
Qed.

(** A read of a direct field of a person node does not look into the
    identity-document collection. *)
Lemma get_text_person_node (tag : string) (default : option string)
      t txt pre ctxt cpre d1 later later' post :
  String.eqb "GiayToTuyThanCollection" tag = false ->
  _get_text (Some (person_node t txt pre ctxt cpre d1 later post)) tag default
  = _get_text (Some (person_node t txt pre ctxt cpre d1 later' post)) tag default.
Proof.
  intros Ht. unfold _get_text, find, person_node. cbn [children].
  rewrite (find_replace (has_tag tag) pre
             (mkElement "GiayToTuyThanCollection" ctxt (cpre ++ d1 :: later))
             (mkElement "GiayToTuyThanCollection" ctxt (cpre ++ d1 :: later')) post);
    [reflexivity|exact Ht|exact Ht].
Qed.

Lemma giay_to_info_of_person_node t txt pre ctxt cpre d1 later post :
  Forall (fun e => has_tag "GiayToTuyThanCollection" e = false) pre ->
  Forall (fun e => has_tag "GiayToTuyThan" e = false) cpre ->
  has_tag "GiayToTuyThan" d1 = true ->
  giay_to_info_of (person_node t txt pre ctxt cpre d1 later post) = giay_to_fields d1.
Proof.
  intros Hpre Hcpre Hd1. unfold giay_to_info_of, find, person_node. cbn [children].
  rewrite (find_skip _ _ _ _ Hpre).
  change (has_tag "GiayToTuyThanCollection"
            (mkElement "GiayToTuyThanCollection" ctxt (cpre ++ d1 :: later)))
    with true.
  unfold truth. cbn [children].
  destruct (cpre ++ d1 :: later) as [|x l] eqn:E.
  - destruct cpre; discriminate.
  - rewrite <- E, (find_skip _ _ _ _ Hcpre), Hd1. reflexivity.
Qed.

Lemma extract_canhan_data_In (root : Element) (r : CaNhan.t) :
  In r (extract_canhan_data root) ->
  exists c ca_nhan,
    find_desc root "CaNhanCollection" = Some c
    /\ In ca_nhan (findall c "CaNhan")
    /\ canhan_of ca_nhan = Some r.
Proof.
  unfold extract_canhan_data.
  destruct (find_desc root "CaNhanCollection") as [c|]; [|intros []].
  destruct (truth c); [|intros []].
  intros H. apply list_elem_of_In, list_elem_of_omap in H as (x & Hx & Hr).
  exists c, x. repeat split; [apply list_elem_of_In, Hx|exact Hr].
Qed.

Lemma canhan_of_person_node t txt pre ctxt cpre d1 later later' post :
  Forall (fun e => has_tag "GiayToTuyThanCollection" e = false) pre ->
  Forall (fun e => has_tag "GiayToTuyThan" e = false) cpre ->
  has_tag "GiayToTuyThan" d1 = true ->
  canhan_of (person_node t txt pre ctxt cpre d1 later post)
  = canhan_of (person_node t txt pre ctxt cpre d1 later' post).
Proof.
  intros Hpre Hcpre Hd1. unfold canhan_of.
  rewrite !(giay_to_info_of_person_node _ _ _ _ _ _ _ _ Hpre Hcpre Hd1).
  rewrite (get_text_person_node "caNhanID" None t txt pre ctxt cpre d1 later later' post eq_refl).
  rewrite (get_text_person_node "hoTen" None t txt pre ctxt cpre d1 later later' post eq_refl).
  rewrite (get_text_person_node "namSinh" None t txt pre ctxt cpre d1 later later' post eq_refl).
  rewrite (get_text_person_node "diaChiID" None t txt pre ctxt cpre d1 later later' post eq_refl).
  rewrite (get_text_person_node "gioiTinh" None t txt pre ctxt cpre d1 later later' post eq_refl).
  rewrite (get_text_person_node "phienBan" None t txt pre ctxt cpre d1 later later' post eq_refl).
  reflexivity.
Qed.

Lemma extract_canhan_data_of (root c ca_nhan : Element) (r : CaNhan.t) :
  find_desc root "CaNhanCollection" = Some c ->
  In ca_nhan (findall c "CaNhan") ->
  canhan_of ca_nhan = Some r ->
  In r (extract_canhan_data root).
Proof.
  intros Hc Hin Hr. unfold extract_canhan_data. rewrite Hc.
  assert (truth c = true) as ->.
  { unfold findall in Hin. apply filter_In in Hin as [Hin _].
    unfold truth. destruct (children c); [destruct Hin|reflexivity]. }
  apply list_elem_of_In, list_elem_of_omap. exists ca_nhan.
  split; [apply list_elem_of_In, Hin|exact Hr].
Qed.

(** C8.  A person node that has an identifier and whose identity-document
    collection lists D1 first gives a person record; the record carries as
    identity-document fields what the readers give on D1, field by field;
    and the entries after D1 contribute nothing to it: with any other
    entries in their place the node gives the same record.  The record is
    in the extracted list when the node is a person node of the person
    collection of the document. *)
Theorem first_identity_document_wins
        (t : string) (txt : option string) (pre : list Element)
        (ctxt : option string) (cpre : list Element) (d1 : Element)
        (later later' post : list Element) (i : string) :
  Forall (fun e => has_tag "GiayToTuyThanCollection" e = false) pre ->
  Forall (fun e => has_tag "GiayToTuyThan" e = false) cpre ->
  has_tag "GiayToTuyThan" d1 = true ->
  Terms.id_of "caNhanID" (person_node t txt pre ctxt cpre d1 later post) = Some i ->
  exists r,
    canhan_of (person_node t txt pre ctxt cpre d1 later post) = Some r
    /\ CaNhan.caNhanID r = i
    /\ CaNhan.giay_to r
       = GiayTo.mk
           (_get_text (Some d1) "giayToTuyThanID" None)
           (_get_text (Some d1) "tenLoaiGiayToTuyThan" None)
           (_parse_date (_get_text (Some d1) "ngayCap" (Some EmptyString)))
           (_get_text (Some d1) "noiCap" None)
           (_get_text (Some d1) "maDinhDanhCaNhan" None)
           (_parse_boolean (_get_text (Some d1) "hieuLuc" (Some EmptyString)))
           (_get_text (Some d1) "soGiayTo" None)
           (_get_text (Some d1) "loaiGiayToTuyThan" None)
    /\ canhan_of (person_node t txt pre ctxt cpre d1 later' post) = Some r
    /\ (forall root c,
           find_desc root "CaNhanCollection" = Some c ->
           In (person_node t txt pre ctxt cpre d1 later post) (findall c "CaNhan") ->
           In r (extract_canhan_data root)).
Proof.
  intros Hpre Hcpre Hd1 Hid.
  pose proof (canhan_of_person_node t txt pre ctxt cpre d1 later later' post
                Hpre Hcpre Hd1) as Hsame.
  unfold Terms.id_of in Hid.
  assert (Hr : exists r, canhan_of (person_node t txt pre ctxt cpre d1 later post) = Some r
                         /\ CaNhan.caNhanID r = i
                         /\ CaNhan.giay_to r = giay_to_fields d1).
  { unfold canhan_of.
    rewrite (giay_to_info_of_person_node _ _ _ _ _ _ _ _ Hpre Hcpre Hd1).
    destruct (_get_text _ "caNhanID" None) as [k|]; [|discriminate].
    destruct (truthy k); [|discriminate]. injection Hid as ->.
    eexists. split; [reflexivity|]. split; reflexivity. }
  destruct Hr as (r & Hr & Hi & Hg). exists r.
  split; [exact Hr|]. split; [exact Hi|]. split; [exact Hg|].
  split; [rewrite <- Hsame; exact Hr|].
  intros root c Hc Hin. exact (extract_canhan_data_of root c _ r Hc Hin Hr).
Qed.

Lemma first_identity_document_wins_witness :
  let d1 := node "GiayToTuyThan" [leaf "giayToTuyThanID" "D1"; leaf "soGiayTo" "111";
                                  leaf "ngayCap" "15/03/2020"; leaf "hieuLuc" "1"] in
  let d2 := node "GiayToTuyThan" [leaf "giayToTuyThanID" "D2"; leaf "soGiayTo" "222"] in
  let pre := [leaf "caNhanID" "A"; leaf "hoTen" "An"] in
  let root later :=
    node "root" [node "CaNhanCollection" [person_node "CaNhan" None pre None [] d1 later []]] in
  exists r,
    canhan_of (person_node "CaNhan" None pre None [] d1 [d2] []) = Some r
    /\ CaNhan.caNhanID r = "A"
    /\ CaNhan.giay_to r
       = GiayTo.mk (Some "D1") None (Some "2020-03-15") None None (Some true)
                   (Some "111") None
    /\ canhan_of (person_node "CaNhan" None pre None [] d1 [] []) = Some r
    /\ In r (extract_canhan_data (root [d2])).
Proof.
  intros d1 d2 pre root.
  destruct (first_identity_document_wins "CaNhan" None pre None [] d1 [d2] [] [] "A")
    as (r & Hr & Hi & Hg & Hr' & Hin); try reflexivity; repeat constructor.
  exists r. split; [exact Hr|]. split; [exact Hi|]. split; [exact Hg|].
  split; [exact Hr'|].
  apply (Hin (root [d2]) (node "CaNhanCollection"
                            [person_node "CaNhan" None pre None [] d1 [d2] []]));
    [reflexivity|left; reflexivity].
Defined.

(** An entry after D1 is not without effect on the other records: the
    search for usage-right nodes covers the whole document, so a usage-right
    node inside a later identity-document entry gives the parcel its owner
    fields; without that entry the owner fields are null.  The person
    records are the same in both documents. *)
Lemma later_entry_reaches_parcel :
  let d1 := node "GiayToTuyThan" [leaf "giayToTuyThanID" "D1"; leaf "soGiayTo" "111"] in
  let d2 := node "GiayToTuyThan"
              [leaf "giayToTuyThanID" "D2"; leaf "soGiayTo" "222";
               node "QuyenSuDungDat" [leaf "thuaDatID" "P1"; leaf "doiTuongID" "O1"]] in
  let doc later :=
    node "root"
      [node "ThuaDatCollection" [node "DC_ThuaDat" [leaf "thuaDatID" "P1"]];
       node "VoChongCollection"
         [node "VoChong" [leaf "voChongID" "O1"; leaf "voID" "A"; leaf "chongID" "B"]];
       node "CaNhanCollection"
         [person_node "CaNhan" None [leaf "caNhanID" "A"] None [] d1 later []]] in
  List.map ThuaDat.owner (extract_thuadat_data (doc [d2]))
  = [VoChong.mk (Some "O1") (Some "A") (Some "B")]
  /\ List.map ThuaDat.owner (extract_thuadat_data (doc [])) = [no_vo_chong]
  /\ extract_canhan_data (doc [d2]) = extract_canhan_data (doc []).
Proof. vm_compute. repeat split; reflexivity. Qed.

Lemma thanh_phan_of_component (a b c d : option string) (x : Element) :
  thanh_phan_of a b c d x
  = match component_id x with
    | Some i => Some (HoSo.mk i a b (_get_text (Some x) "loaiGiayTo" None)
                              (_get_text (Some x) "tepTin" None)
                              (_get_text (Some x) "url" None) c d)
    | None => None
    end.
Proof.
  unfold thanh_phan_of, component_id.
  destruct (_get_text (Some x) "thanhPhanHoSoID" None) as [i|]; [|reflexivity].
  destruct (truthy i); reflexivity.
Qed.

Lemma thanh_phan_of_id (a b c d : option string) (l : list Element) :
  List.map HoSo.thanhPhanHoSoID (omap (thanh_phan_of a b c d) l)
  = omap component_id l
  /\ Forall (fun r => HoSo.hoSoDangKySoID r = a) (omap (thanh_phan_of a b c d) l).
Proof.
  induction l as [|x l [IH1 IH2]]; [split; [reflexivity|constructor]|].
  cbn [omap list_omap]. rewrite thanh_phan_of_component.
  destruct (component_id x) as [i|]; [|split; assumption].
  split.
  - cbn [List.map HoSo.thanhPhanHoSoID]. f_equal. exact IH1.
  - constructor; [reflexivity|exact IH2].
Qed.

(** A case node whose [hoSoDangKySoID] element is missing or has no text
    still gives one record per component child that has a component
    identifier, in their order, each with a null parent-case identifier; the
    records are part of the extracted list when the case node is in the case
    collection. *)
Lemma components_without_case_id (hoso : Element) :
  _get_text (Some hoso) "hoSoDangKySoID" None = None ->
  List.map HoSo.thanhPhanHoSoID (hoso_of hoso) = omap component_id (components hoso)
  /\ Forall (fun r => HoSo.hoSoDangKySoID r = None) (hoso_of hoso)
  /\ (forall root c,
         find_desc root "HoSoDangKyDatDaiCollection" = Some c ->
         In hoso (findall c "HoSoDangKyDatDai") ->
         incl (hoso_of hoso) (extract_hoso_data root)).
Proof.
  intros Hid. unfold hoso_of, components. rewrite Hid.
  split; [|split].
  - destruct (find hoso "ThanhPhanHoSoDangKyDatDaiCollection") as [c|]; [|reflexivity].
    unfold truth, findall. destruct (children c) as [|x l]; [reflexivity|].
    apply thanh_phan_of_id.
  - destruct (find hoso "ThanhPhanHoSoDangKyDatDaiCollection") as [c|]; [|constructor].
    destruct (truth c); [|constructor].
    apply thanh_phan_of_id.
  - intros root c Hc Hin r Hr. unfold extract_hoso_data. rewrite Hc.
    assert (truth c = true) as ->.
    { unfold findall in Hin. apply filter_In in Hin as [Hin _].
      unfold truth. destruct (children c); [destruct Hin|reflexivity]. }
    apply in_flat_map. exists hoso. split; [exact Hin|].
    unfold hoso_of. rewrite Hid. exact Hr.
Qed.

Lemma get_text_blank (e child : Element) (tag t : string) (default : option string) :
  find e tag = Some child -> text child = Some t ->
  truthy t = true -> has_ink t = false ->
  _get_text (Some e) tag default = Some EmptyString.
Proof.
  intros Hf Ht Hn Hi. unfold _get_text. rewrite Hf, Ht, Hn. f_equal.
  unfold strip. apply rstrip_empty_iff. rewrite has_ink_lstrip. exact Hi.
Qed.

(** C10.  A case node whose [hoSoDangKySoID] element holds only white
    space has no case identifier.  It still gives one record per component
    child that has a component identifier, in their order; but these
    records carry the empty string as parent-case identifier, not null. *)
Theorem blank_case_id_is_kept (hoso child : Element) (t : string) :
  find hoso "hoSoDangKySoID" = Some child ->
  text child = Some t ->
  truthy t = true ->
  has_ink t = false ->
  Terms.id_of "hoSoDangKySoID" hoso = None
  /\ List.map HoSo.thanhPhanHoSoID (hoso_of hoso) = omap component_id (components hoso)
  /\ Forall (fun r => HoSo.hoSoDangKySoID r = Some EmptyString) (hoso_of hoso).
Proof.
  intros Hf Ht Hn Hi.
  pose proof (get_text_blank hoso child "hoSoDangKySoID" t None Hf Ht Hn Hi) as Hid.
  split; [unfold Terms.id_of; rewrite Hid; reflexivity|].
  unfold hoso_of, components. rewrite Hid.
  destruct (find hoso "ThanhPhanHoSoDangKyDatDaiCollection") as [c|];
    [|split; [reflexivity|constructor]].
  unfold truth, findall. destruct (children c) as [|x l]; [split; [reflexivity|constructor]|].
  apply thanh_phan_of_id.
Qed.

Lemma blank_case_id_is_kept_witness :
  let hoso :=
    node "HoSoDangKyDatDai"
      [leaf "hoSoDangKySoID" " ";
       leaf "giayChungNhanID" "G1";
       node "ThanhPhanHoSoDangKyDatDaiCollection"
         [node "ThanhPhanHoSoDangKyDatDai" [leaf "thanhPhanHoSoID" "T1"];
          node "ThanhPhanHoSoDangKyDatDai" [leaf "tepTin" "a.pdf"];
          node "ThanhPhanHoSoDangKyDatDai" [leaf "thanhPhanHoSoID" "T2"]]] in
  Terms.id_of "hoSoDangKySoID" hoso = None
  /\ List.map HoSo.thanhPhanHoSoID (hoso_of hoso) = ["T1"; "T2"]
  /\ List.map HoSo.hoSoDangKySoID (hoso_of hoso) = [Some EmptyString; Some EmptyString].
Proof.
  intros hoso.
  destruct (blank_case_id_is_kept hoso (leaf "hoSoDangKySoID" " ") " ")
    as (Hid & Hids & Hparent); try reflexivity.
  split; [exact Hid|]. split; [rewrite Hids; reflexivity|].
  vm_compute. reflexivity.
Defined.

End Extraction.

(** * Properties of the loader *)

Section Loader.

Import Pg DatabaseInserter XMLToDBExtractor Notions.

(** ** What a statement and a batch leave untouched *)

Lemma execute_insert_keeps (c : conn) (r : row) :
  committed (fst (execute_insert c r)) = committed c
  /\ log (fst (execute_insert c r)) = log c.
Proof.
  unfold execute_insert. destruct (aborted c); [split; reflexivity|].
  destruct (next_fault (faults c)) as [[|] fs]; [split; reflexivity|].
  destruct (insert_or_skip (working c) r); split; reflexivity.
Qed.

Lemma run_batch_keeps (rows : list row) (c : conn) :
  committed (fst (run_batch c rows)) = committed c
  /\ log (fst (run_batch c rows)) = log c.
Proof.
  revert c. induction rows as [|r rows IH]; intros c; simpl; [split; reflexivity|].
  pose proof (execute_insert_keeps c r) as [Hc Hl].
  destruct (execute_insert c r) as [c1 [[]|]]; simpl in *.
  - destruct (IH c1) as [Hc' Hl']. rewrite Hc', Hl'. split; assumption.
  - split; assumption.
Qed.

Lemma execute_batch_keeps (rows : list row) (c : conn) :
  committed (fst (execute_batch c rows)) = committed c
  /\ log (fst (execute_batch c rows)) = log c ++ [EvExecuteBatch rows].
Proof.
  unfold execute_batch.
  destruct (run_batch_keeps rows (record_event (EvExecuteBatch rows) c)) as [-> ->].
  split; reflexivity.
Qed.

(** ** A failed batch *)

Lemma try_execute_batch_raised (c c' : conn) (rows : list row) (n : Z)
      (msg : string) :
  execute_batch c rows = (c', Raised) ->
  exists c'',
    try_execute_batch c rows n msg = (c'', (0, n)%Z)
    /\ working c'' = committed c
    /\ committed c'' = committed c
    /\ aborted c'' = false
    /\ log c'' = log c ++ [EvExecuteBatch rows; EvPrint msg; EvRollback].
Proof.
  intros H. pose proof (execute_batch_keeps rows c) as [Hc Hl].
  unfold try_execute_batch. rewrite H in *. simpl in Hc, Hl.
  eexists. split; [reflexivity|].
  unfold rollback, print, record_event; simpl. rewrite Hc, Hl.
  repeat split. rewrite <- !app_assoc. reflexivity.
Qed.

Lemma check_gcn_ids_keeps (c : conn) (unique : gset string) :
  committed (fst (check_gcn_ids c unique)) = committed c
  /\ working (fst (check_gcn_ids c unique)) = working c.
Proof.
  unfold check_gcn_ids. destruct (decide (unique = ∅)); [split; reflexivity|].
  unfold select_giaychungnhan. cbn [aborted record_event faults].
  destruct (aborted c); [split; reflexivity|].
  destruct (next_fault (faults c)) as [[|] fs]; split; reflexivity.
Qed.

(** C4.  When the batched insert of any of the four kinds raises, the
    method prints its message, rolls the transaction back (the working
    state is again the committed one) and returns 0 inserted and the batch
    size skipped; the batch is executed once: the log holds one batch, the
    message and the rollback. *)
Theorem insert_failure_rolls_back (c : conn) :
  (forall (data_list : list ThuaDat.t) c',
      data_list <> [] ->
      execute_batch c (List.map RThuaDat data_list) = (c', Raised) ->
      exists c'',
        insert_thuadat c data_list = (c'', (0, len data_list)%Z)
        /\ working c'' = committed c /\ committed c'' = committed c
        /\ aborted c'' = false
        /\ log c'' = log c ++ [EvExecuteBatch (List.map RThuaDat data_list);
                               EvPrint "Error inserting thuadat"; EvRollback])
  /\ (forall (data_list : list CaNhan.t) c',
         data_list <> [] ->
         execute_batch c (List.map RCaNhan data_list) = (c', Raised) ->
         exists c'',
           insert_canhan c data_list = (c'', (0, len data_list)%Z)
           /\ working c'' = committed c /\ committed c'' = committed c
           /\ aborted c'' = false
           /\ log c'' = log c ++ [EvExecuteBatch (List.map RCaNhan data_list);
                                  EvPrint "Error inserting canhan"; EvRollback])
  /\ (forall (data_list : list GiayChungNhan.t) c',
         data_list <> [] ->
         execute_batch c (List.map RGiayChungNhan data_list) = (c', Raised) ->
         exists c'',
           insert_giaychungnhan c data_list = (c'', (0, len data_list)%Z)
           /\ working c'' = committed c /\ committed c'' = committed c
           /\ aborted c'' = false
           /\ log c'' = log c ++ [EvExecuteBatch (List.map RGiayChungNhan data_list);
                                  EvPrint "Error inserting giaychungnhan"; EvRollback])
  /\ (forall (data_list : list HoSo.t) c1 valid_gcn_ids c',
         data_list <> [] ->
         check_gcn_ids c (unique_gcn_ids data_list) = (c1, valid_gcn_ids) ->
         execute_batch c1 (List.map RHoSo (List.map (validate valid_gcn_ids) data_list))
         = (c', Raised) ->
         exists c'',
           insert_hoso c data_list
           = (c'', List.map (validate valid_gcn_ids) data_list, (0, len data_list)%Z)
           /\ working c'' = committed c /\ committed c'' = committed c
           /\ aborted c'' = false
           /\ log c'' = log c1
                        ++ [EvExecuteBatch
                              (List.map RHoSo (List.map (validate valid_gcn_ids) data_list));
                            EvPrint "Error inserting hoso"; EvRollback]).
Proof.
  split; [|split; [|split]].
  - intros [|x l] c' Hne H; [congruence|].
    eapply try_execute_batch_raised; exact H.
  - intros [|x l] c' Hne H; [congruence|].
    eapply try_execute_batch_raised; exact H.
  - intros [|x l] c' Hne H; [congruence|].
    eapply try_execute_batch_raised; exact H.
  - intros [|x l] c1 valid c' Hne Hc H; [congruence|].
    pose proof (check_gcn_ids_keeps c (unique_gcn_ids (x :: l))) as [Hk _].
    unfold insert_hoso. rewrite Hc in *. simpl in Hk.
    destruct (try_execute_batch_raised c1 c' _
                (len (List.map (validate valid) (x :: l))) "Error inserting hoso" H)
      as (c'' & E & Hw & Hcm & Ha & Hl).
    rewrite E. exists c''. rewrite Hw, Hcm, Hk.
    repeat split; try assumption.
    unfold len. rewrite length_map. reflexivity.
Qed.

Lemma insert_failure_rolls_back_witness :
  exists c'',
    insert_thuadat (connect empty_db []) [owned_parcel] = (c'', (0, len [owned_parcel])%Z)
    /\ working c'' = committed (connect empty_db [])
    /\ committed c'' = committed (connect empty_db [])
    /\ aborted c'' = false
    /\ log c'' = log (connect empty_db [])
                 ++ [EvExecuteBatch (List.map RThuaDat [owned_parcel]);
                     EvPrint "Error inserting thuadat"; EvRollback].
Proof.
  eapply (proj1 (insert_failure_rolls_back (connect empty_db [])) [owned_parcel]).
  - discriminate.
  - vm_compute. reflexivity.
Defined.

(** ** The check of the certificate references *)

Lemma select_giaychungnhan_log (c : conn) (ids : gset string) :
  log (fst (select_giaychungnhan c ids)) = log c ++ [EvSelect ids].
Proof.
  unfold select_giaychungnhan. cbn [aborted record_event faults].
  destruct (aborted c); [reflexivity|].
  destruct (next_fault (faults c)) as [[|] fs]; reflexivity.
Qed.

Lemma validate_id_on (S : gset string) (l : list HoSo.t) :
  (forall d g, In d l -> truthy_gcn_id d = Some g -> g ∈ S) ->
  List.map (validate S) l = l.
Proof.
  induction l as [|d l IH]; intros H; simpl; [reflexivity|].
  rewrite IH by (intros d' g Hd; apply H; right; exact Hd). f_equal.
  unfold validate. destruct (truthy_gcn_id d) as [g|] eqn:Hg; [|reflexivity].
  destruct (decide (g ∈ S)) as [|Hn]; [reflexivity|].
  exfalso. apply Hn. apply (H d g); [left; reflexivity|exact Hg].
Qed.

Lemma validate_unique (data_list : list HoSo.t) :
  List.map (validate (unique_gcn_ids data_list)) data_list = data_list.
Proof.
  apply validate_id_on. intros d g Hd Hg. unfold unique_gcn_ids.
  apply elem_of_list_to_set, list_elem_of_omap. exists d.
  split; [apply list_elem_of_In, Hd|exact Hg].
Qed.

Lemma select_giaychungnhan_raised (c c1 : conn) (ids : gset string) :
  select_giaychungnhan c ids = (c1, Raised) ->
  aborted c1 = true /\ committed c1 = committed c.
Proof.
  unfold select_giaychungnhan. cbn [aborted record_event faults].
  destruct (aborted c) eqn:Ha.
  - intros [= <-]. split; [exact Ha|reflexivity].
  - destruct (next_fault (faults c)) as [[|] fs]; [|discriminate].
    intros [= <-]. split; reflexivity.
Qed.

(** C9.  When the query that checks the referenced certificate
    identifiers raises, [insert_hoso] prints the warning, leaves every
    record as it is (no reference is set to null) and executes the batch
    with the records as given.  The failed query has left the transaction
    aborted, so the batch raises at its first statement: the error is
    printed, the transaction is rolled back, with it everything the load had
    inserted before, and the whole batch is reported as skipped. *)
Theorem failed_check_fails_insert (c c1 : conn) (data_list : list HoSo.t) :
  data_list <> [] ->
  unique_gcn_ids data_list <> ∅ ->
  select_giaychungnhan c (unique_gcn_ids data_list) = (c1, Raised) ->
  exists c',
    insert_hoso c data_list = (c', data_list, (0, len data_list)%Z)
    /\ log c' = log c
                ++ [EvSelect (unique_gcn_ids data_list);
                    EvPrint "Warning: Could not verify giayChungNhanID existence";
                    EvExecuteBatch (List.map RHoSo data_list);
                    EvPrint "Error inserting hoso";
                    EvRollback]
    /\ working c' = committed c
    /\ committed c' = committed c.
Proof.
  intros Hne Hu Hs. destruct data_list as [|x l]; [congruence|].
  unfold insert_hoso, check_gcn_ids.
  destruct (decide (unique_gcn_ids (x :: l) = ∅)) as [E|_]; [contradiction|].
  pose proof (select_giaychungnhan_log c (unique_gcn_ids (x :: l))) as Hl.
  destruct (select_giaychungnhan_raised _ _ _ Hs) as [Ha Hc].
  rewrite Hs in *. cbn [fst] in Hl.
  rewrite validate_unique. unfold try_execute_batch, execute_batch.
  cbn [List.map run_batch]. unfold execute_insert.
  cbn [aborted record_event Pg.print]. rewrite Ha.
  eexists. split; [reflexivity|].
  cbn [rollback Pg.print record_event log working committed].
  rewrite Hl, Hc, <- !app_assoc. repeat split.
Qed.

Lemma failed_check_fails_insert_witness :
  let h := HoSo.mk "T1" None (Some "G9") None None None None None in
  exists c',
    insert_hoso (connect empty_db [true]) [h] = (c', [h], (0, len [h])%Z)
    /\ log c' = log (connect empty_db [true])
                ++ [EvSelect (unique_gcn_ids [h]);
                    EvPrint "Warning: Could not verify giayChungNhanID existence";
                    EvExecuteBatch (List.map RHoSo [h]);
                    EvPrint "Error inserting hoso";
                    EvRollback]
    /\ working c' = committed (connect empty_db [true])
    /\ committed c' = committed (connect empty_db [true]).
Proof.
  intros h.
  apply (failed_check_fails_insert (connect empty_db [true])
           (fst (select_giaychungnhan (connect empty_db [true]) (unique_gcn_ids [h])))
           [h]).
  - discriminate.
  - intros E. assert (H : "G9" ∈ unique_gcn_ids [h]) by (apply elem_of_list_to_set; left).
    rewrite E in H. exact (not_elem_of_empty _ H).
  - reflexivity.
Defined.

(** The same within a load: the check query of the components is the
    fourth statement to reach the server; when it fails, the persons, the
    certificate and the parcel the load had inserted are rolled back too and
    nothing of the document is stored. *)
Example failed_check_loses_document :
  committed (fst (XMLToDBExtractor.process_single_file_worker
                    empty_db [false; false; false; false; true] scenario_doc))
  = empty_db
  /\ committed (fst (XMLToDBExtractor.process_single_file_worker
                       empty_db [] scenario_doc))
     = scenario_store.
Proof. split; vm_compute; reflexivity. Qed.

(** ** A batch whose rows are all in the store *)

Lemma run_batch_conflicts (rows : list row) (c : conn) :
  Forall (fun r => insert_or_skip (working c) r = Conflict) rows ->
  working (fst (run_batch c rows)) = working c
  /\ (snd (run_batch c rows) = Returned tt -> rows <> [] ->
      rowcount (fst (run_batch c rows)) = 0%Z).
Proof.
  revert c. induction rows as [|r rows IH]; intros c H; simpl.
  - split; [reflexivity|congruence].
  - inversion H as [|? ? Hr Hrows]; subst. unfold execute_insert.
    destruct (aborted c); [split; [reflexivity|discriminate]|].
    destruct (next_fault (faults c)) as [[|] fs]; [split; [reflexivity|discriminate]|].
    rewrite Hr.
    set (c1 := mkConn (committed c) (working c) false fs 0 (log c)).
    destruct (IH c1 Hrows) as [Hw Hn]. split; [exact Hw|].
    intros Hret _. destruct rows as [|r' rows']; [reflexivity|].
    apply Hn; [exact Hret|discriminate].
Qed.

Lemma try_execute_batch_conflicts (store : db) (c : conn) (rows : list row)
      (n : Z) (msg : string) :
  committed c = store -> working c = store ->
  Forall (fun r => insert_or_skip store r = Conflict) rows ->
  rows <> [] ->
  exists c', try_execute_batch c rows n msg = (c', (0, n)%Z)
             /\ committed c' = store /\ working c' = store.
Proof.
  intros Hc Hw Hrows Hne.
  unfold try_execute_batch, execute_batch.
  set (c0 := record_event (EvExecuteBatch rows) c).
  assert (Hrows0 : Forall (fun r => insert_or_skip (working c0) r = Conflict) rows)
    by (unfold c0; cbn [working record_event]; rewrite Hw; exact Hrows).
  destruct (run_batch_conflicts rows c0 Hrows0) as [Hw' Hn].
  destruct (run_batch_keeps rows c0) as [Hc' _].
  destruct (run_batch c0 rows) as [c' [[]|]]; simpl in *.
  - exists c'. rewrite (Hn eq_refl Hne), Z.sub_0_r.
    repeat split; congruence.
  - eexists. split; [reflexivity|]. simpl. split; congruence.
Qed.

Lemma validate_key (valid : gset string) (d : HoSo.t) :
  HoSo.thanhPhanHoSoID (validate valid d) = HoSo.thanhPhanHoSoID d.
Proof.
  unfold validate. destruct (truthy_gcn_id d); [|reflexivity].
  destruct (decide _); reflexivity.
Qed.

Lemma is_Some_conflict {A : Type} (m : gmap string A) (k : string) (v : verdict) :
  is_Some (m !! k) ->
  match m !! k with Some _ => Conflict | None => v end = Conflict.
Proof. intros [x ->]. reflexivity. Qed.

(** Every row of a batch conflicts with a row of the store, from the
    hypothesis [H] that every record's key is in its table. *)
Ltac all_conflict H :=
  apply Forall_map; eapply Forall_impl; [exact H|];
  let r := fresh "r" in
  let Hr := fresh "Hr" in
  intros r Hr; cbn [insert_or_skip]; rewrite ?validate_key;
  apply is_Some_conflict, Hr.

(** C2.  When every record of the four lists is already a row of the
    store, the load inserts nothing: each kind reports 0 inserted and its
    batch size skipped, and the committed store is the store as it was,
    whatever failures the statements meet. *)
Theorem second_pass_changes_nothing
        (store : db) (fs : list bool)
        (thuadat_data : list ThuaDat.t) (canhan_data : list CaNhan.t)
        (gcn_data : list GiayChungNhan.t) (hoso_data : list HoSo.t) :
  Forall (fun r => is_Some (thuadat store !! ThuaDat.thuaDatID r)) thuadat_data ->
  Forall (fun r => is_Some (canhan store !! CaNhan.caNhanID r)) canhan_data ->
  Forall (fun r => is_Some (giaychungnhan store !! GiayChungNhan.giayChungNhanID r))
         gcn_data ->
  Forall (fun r => is_Some (hoso store !! HoSo.thanhPhanHoSoID r)) hoso_data ->
  exists c',
    load_records (connect store fs) thuadat_data canhan_data gcn_data hoso_data
    = (c', mkStats 0 (len thuadat_data) 0 (len canhan_data)
                   0 (len gcn_data) 0 (len hoso_data))
    /\ committed c' = store.
Proof.
  intros Htd Hcn Hgcn Hhs. unfold load_records.
  (* canhan *)
  assert (H1 : exists c1, insert_canhan (connect store fs) canhan_data
                          = (c1, (0, len canhan_data)%Z)
                          /\ committed c1 = store /\ working c1 = store).
  { destruct canhan_data as [|x l]; [eexists; repeat split|].
    apply try_execute_batch_conflicts; try reflexivity; [|discriminate].
    all_conflict Hcn. }
  destruct H1 as (c1 & -> & Hc1 & Hw1).
  (* giaychungnhan *)
  assert (H2 : exists c2, insert_giaychungnhan c1 gcn_data = (c2, (0, len gcn_data)%Z)
                          /\ committed c2 = store /\ working c2 = store).
  { destruct gcn_data as [|x l]; [eexists; repeat split; assumption|].
    apply try_execute_batch_conflicts; try assumption; [|discriminate].
    all_conflict Hgcn. }
  destruct H2 as (c2 & -> & Hc2 & Hw2).
  (* thuadat *)
  assert (H3 : exists c3, insert_thuadat c2 thuadat_data = (c3, (0, len thuadat_data)%Z)
                          /\ committed c3 = store /\ working c3 = store).
  { destruct thuadat_data as [|x l]; [eexists; repeat split; assumption|].
    apply try_execute_batch_conflicts; try assumption; [|discriminate].
    all_conflict Htd. }
  destruct H3 as (c3 & -> & Hc3 & Hw3).
  (* hoso *)
  assert (H4 : exists c4 l4, insert_hoso c3 hoso_data = (c4, l4, (0, len hoso_data)%Z)
                             /\ committed c4 = store /\ working c4 = store).
  { destruct hoso_data as [|x l]; [eexists _, _; repeat split; assumption|].
    unfold insert_hoso.
    pose proof (check_gcn_ids_keeps c3 (unique_gcn_ids (x :: l))) as [Hk Hk'].
    destruct (check_gcn_ids c3 (unique_gcn_ids (x :: l))) as [c3' valid].
    simpl in Hk, Hk'.
    destruct (try_execute_batch_conflicts store c3'
                (List.map RHoSo (List.map (validate valid) (x :: l)))
                (len (List.map (validate valid) (x :: l))) "Error inserting hoso")
      as (c4 & E & Hc4 & Hw4); try congruence; [|discriminate|].
    - apply Forall_map. all_conflict Hhs.
    - rewrite E. exists c4, (List.map (validate valid) (x :: l)).
      split; [|split; assumption].
      unfold len. rewrite length_map. reflexivity. }
  destruct H4 as (c4 & l4 & -> & Hc4 & Hw4).
  eexists. split; [reflexivity|].
  unfold commit. simpl. destruct (aborted c4); assumption.
Qed.

Lemma second_pass_changes_nothing_witness :
  exists c',
    load_records (connect scenario_store [false; true])
                 (XMLParser.extract_thuadat_data scenario_doc)
                 (XMLParser.extract_canhan_data scenario_doc)
                 (XMLParser.extract_giaychungnhan_data scenario_doc)
                 (XMLParser.extract_hoso_data scenario_doc)
    = (c', mkStats 0 (len (XMLParser.extract_thuadat_data scenario_doc))
                   0 (len (XMLParser.extract_canhan_data scenario_doc))
                   0 (len (XMLParser.extract_giaychungnhan_data scenario_doc))
                   0 (len (XMLParser.extract_hoso_data scenario_doc)))
    /\ committed c' = scenario_store.
Proof.
  apply second_pass_changes_nothing; vm_compute; repeat econstructor.
Defined.

(** ** A batch of document components when no statement fails *)

Lemma next_fault_quiet (fs : list bool) :
  quiet fs -> exists fs', next_fault fs = (false, fs') /\ quiet fs'.
Proof.
  intros H. destruct H as [|b fs Hb Hfs]; simpl.
  - exists []. split; [reflexivity|constructor].
  - subst b. exists fs. split; [reflexivity|exact Hfs].
Qed.









(** A reference that is the empty string (the text of an element that
    holds only white space) is neither checked nor set to null; the insert
    then fails on the foreign key and the batch is rolled back, with it the
    component of the same batch whose reference had been set to null. *)
Example empty_reference_rolls_back :
  let blank := HoSo.mk "T7" (Some "H2") (Some EmptyString) None None None None None in
  let result := insert_hoso (connect scenario_store []) [component_g9; blank] in
  snd (fst result) = [HoSo.set_giayChungNhanID None component_g9; blank]
  /\ snd result = (0, 2)%Z
  /\ working (fst (fst result)) = scenario_store.
Proof. vm_compute. repeat split; reflexivity. Qed.

(** The row of the component with the dangling reference after the load. *)
Example dangling_component_row :
  hoso (working (fst (fst (insert_hoso (connect scenario_store [])
                                        [component_g1; component_g9])))) !! "T9"
  = Some (HoSo.set_giayChungNhanID None component_g9)
  /\ hoso (working (fst (fst (insert_hoso (connect scenario_store [])
                                           [component_g1; component_g9])))) !! "T8"
     = Some component_g1.
Proof. split; vm_compute; reflexivity. Qed.

(** ** Rows are added, never changed *)

Lemma db_incl_refl (d : db) : db_incl d d.
Proof. repeat split; reflexivity. Qed.

Lemma db_incl_trans (a b c : db) : db_incl a b -> db_incl b c -> db_incl a c.
Proof.
  intros (H1 & H2 & H3 & H4) (K1 & K2 & K3 & K4).
  repeat split; etrans; eassumption.
Qed.

Lemma insert_or_skip_incl (d d' : db) (r : row) :
  insert_or_skip d r = Inserted d' -> db_incl d d'.
Proof.
  destruct r as [t|p|g|h]; cbn [insert_or_skip].
  - destruct (thuadat d !! ThuaDat.thuaDatID t) eqn:E; [discriminate|].
    destruct (_ && _); [|discriminate]. intros [= <-].
    repeat split; try reflexivity. apply insert_subseteq, E.
  - destruct (canhan d !! CaNhan.caNhanID p) eqn:E; [discriminate|].
    intros [= <-]. repeat split; try reflexivity. apply insert_subseteq, E.
  - destruct (giaychungnhan d !! GiayChungNhan.giayChungNhanID g) eqn:E; [discriminate|].
    intros [= <-]. repeat split; try reflexivity. apply insert_subseteq, E.
  - destruct (hoso d !! HoSo.thanhPhanHoSoID h) eqn:E; [discriminate|].
    destruct (references _ _); [|discriminate]. intros [= <-].
    repeat split; try reflexivity. apply insert_subseteq, E.
Qed.

Lemma run_batch_incl (rows : list row) (c : conn) :
  db_incl (working c) (working (fst (run_batch c rows))).
Proof.
  revert c. induction rows as [|r rows IH]; intros c; simpl; [apply db_incl_refl|].
  unfold execute_insert. destruct (aborted c); [apply db_incl_refl|].
  destruct (next_fault (faults c)) as [[|] fs]; [apply db_incl_refl|].
  destruct (insert_or_skip (working c) r) as [d| |] eqn:E.
  - eapply db_incl_trans; [apply (insert_or_skip_incl _ _ _ E)|].
    apply (IH (mkConn (committed c) d false fs 1 (log c))).
  - apply (IH (mkConn (committed c) (working c) false fs 0 (log c))).
  - apply db_incl_refl.
Qed.

Lemma try_execute_batch_incl (store : db) (c : conn) (rows : list row) (n : Z)
      (msg : string) :
  committed c = store -> db_incl store (working c) ->
  committed (fst (try_execute_batch c rows n msg)) = store
  /\ db_incl store (working (fst (try_execute_batch c rows n msg))).
Proof.
  intros Hc Hw. unfold try_execute_batch, execute_batch.
  pose proof (run_batch_incl rows (record_event (EvExecuteBatch rows) c)) as Hi.
  destruct (run_batch_keeps rows (record_event (EvExecuteBatch rows) c)) as [Hk _].
  destruct (run_batch _ rows) as [c' [[]|]]; simpl in *.
  - split; [congruence|]. eapply db_incl_trans; eassumption.
  - split; [congruence|]. rewrite Hk, Hc. apply db_incl_refl.
Qed.

(** A load never updates a row: every row of the store before the load is a
    row of the committed store after it, with the same fields. *)
Lemma load_never_updates (store : db) (fs : list bool)
      (thuadat_data : list ThuaDat.t) (canhan_data : list CaNhan.t)
      (gcn_data : list GiayChungNhan.t) (hoso_data : list HoSo.t) :
  db_incl store
          (committed (fst (load_records (connect store fs) thuadat_data canhan_data
                                        gcn_data hoso_data))).
Proof.
  unfold load_records.
  assert (H0 : committed (connect store fs) = store
               /\ db_incl store (working (connect store fs)))
    by (split; [reflexivity|apply db_incl_refl]).
  revert H0. generalize (connect store fs). intros c0 [Hc0 Hw0].
  assert (H1 : committed (fst (insert_canhan c0 canhan_data)) = store
               /\ db_incl store (working (fst (insert_canhan c0 canhan_data)))).
  { destruct canhan_data; [split; assumption|].
    apply try_execute_batch_incl; assumption. }
  destruct (insert_canhan c0 canhan_data) as [c1 [a1 b1]]. destruct H1 as [Hc1 Hw1].
  cbn [fst] in *.
  assert (H2 : committed (fst (insert_giaychungnhan c1 gcn_data)) = store
               /\ db_incl store (working (fst (insert_giaychungnhan c1 gcn_data)))).
  { destruct gcn_data; [split; assumption|].
    apply try_execute_batch_incl; assumption. }
  destruct (insert_giaychungnhan c1 gcn_data) as [c2 [a2 b2]]. destruct H2 as [Hc2 Hw2].
  cbn [fst] in *.
  assert (H3 : committed (fst (insert_thuadat c2 thuadat_data)) = store
               /\ db_incl store (working (fst (insert_thuadat c2 thuadat_data)))).
  { destruct thuadat_data; [split; assumption|].
    apply try_execute_batch_incl; assumption. }
  destruct (insert_thuadat c2 thuadat_data) as [c3 [a3 b3]]. destruct H3 as [Hc3 Hw3].
  cbn [fst] in *.
  assert (H4 : committed (fst (fst (insert_hoso c3 hoso_data))) = store
               /\ db_incl store (working (fst (fst (insert_hoso c3 hoso_data))))).
  { destruct hoso_data as [|x l]; [split; assumption|].
    unfold insert_hoso.
    pose proof (check_gcn_ids_keeps c3 (unique_gcn_ids (x :: l))) as [Hk Hk'].
    destruct (check_gcn_ids c3 (unique_gcn_ids (x :: l))) as [c3' valid].
    cbn [fst] in Hk, Hk'.
    pose proof (try_execute_batch_incl store c3'
                  (List.map RHoSo (List.map (validate valid) (x :: l)))
                  (len (List.map (validate valid) (x :: l))) "Error inserting hoso") as H.
    destruct (try_execute_batch c3' _ _ _) as [c4 counts]. cbn [fst] in *.
    apply H; congruence. }
  destruct (insert_hoso c3 hoso_data) as [[c4 l4] [a4 b4]]. destruct H4 as [Hc4 Hw4].
  cbn [fst] in *. unfold commit. cbn [committed].
  destruct (aborted c4); [rewrite Hc4; apply db_incl_refl|exact Hw4].
Qed.

End Loader.

(** * Further properties of the extraction *)

Section MoreExtraction.

Import PyStr ET XMLParser Notions Terms.

Lemma truth_false_findall (c : Element) (t : string) :
  truth c = false -> findall c t = [].
Proof.
  unfold truth, findall. destruct (children c); [reflexivity|discriminate].
Qed.

(** The records of a collection are the records of its item nodes, whether
    or not the collection is tested for truth first. *)
Lemma over_collection {A : Type} (root : Element) (coll item : string)
      (f : Element -> option A) :
  match find_desc root coll with
  | Some c => if truth c then omap f (findall c item) else []
  | None => []
  end
  = omap f (collection_nodes root coll item).
Proof.
  unfold collection_nodes. destruct (find_desc root coll) as [c|]; [|reflexivity].
  destruct (truth c) eqn:E; [reflexivity|].
  rewrite (truth_false_findall _ _ E). reflexivity.
Qed.

Lemma id_of_nonempty (tag : string) (e : Element) (i : string) :
  id_of tag e = Some i -> i <> EmptyString.
Proof.
  unfold id_of. destruct (_get_text (Some e) tag None) as [j|]; [|discriminate].
  destruct j; [discriminate|]. intros [= <-]. discriminate.
Qed.

Lemma omap_ids {A : Type} (f : Element -> option A) (key : A -> string)
      (tag : string) (l : list Element) :
  (forall e, key <$> f e = id_of tag e) ->
  List.map key (omap f l) = omap (id_of tag) l.
Proof.
  intros H. induction l as [|e l IH]; [reflexivity|].
  cbn [omap list_omap]. rewrite <- (H e).
  destruct (f e); cbn; [f_equal|]; exact IH.
Qed.

Lemma omap_nonempty (tag : string) (l : list Element) :
  Forall (fun i => i <> EmptyString) (omap (id_of tag) l).
Proof.
  induction l as [|e l IH]; [constructor|].
  cbn [omap list_omap]. destruct (id_of tag e) as [i|] eqn:E; [|exact IH].
  constructor; [eapply id_of_nonempty, E|exact IH].
Qed.

Lemma omap_length_le {A B : Type} (f : A -> option B) (l : list A) :
  (length (omap f l) <= length l)%nat.
Proof.
  induction l as [|e l IH]; [reflexivity|].
  cbn [omap list_omap]. destruct (f e); simpl; lia.
Qed.

Lemma thuadat_of_id (root : Element) (m : gmap string VoChong.t) (e : Element) :
  ThuaDat.thuaDatID <$> thuadat_of root m e = id_of "thuaDatID" e.
Proof.
  unfold thuadat_of, id_of. destruct (_get_text (Some e) "thuaDatID" None) as [i|];
    [|reflexivity].
  destruct (truthy i); reflexivity.
Qed.

(** X1.  The parcel records are, in document order, one per [DC_ThuaDat]
    node of the first parcel collection that carries a non-empty
    identifier; a node without one gives no record, and no record has an
    empty identifier. *)
Theorem extract_thuadat_ids (root : Element) :
  List.map ThuaDat.thuaDatID (extract_thuadat_data root)
  = omap (id_of "thuaDatID") (collection_nodes root "ThuaDatCollection" "DC_ThuaDat")
  /\ Forall (fun r => ThuaDat.thuaDatID r <> EmptyString) (extract_thuadat_data root)
  /\ (length (extract_thuadat_data root)
      <= length (collection_nodes root "ThuaDatCollection" "DC_ThuaDat"))%nat.
Proof.
  assert (E : List.map ThuaDat.thuaDatID (extract_thuadat_data root)
              = omap (id_of "thuaDatID")
                     (collection_nodes root "ThuaDatCollection" "DC_ThuaDat")).
  { unfold extract_thuadat_data. cbv zeta. rewrite over_collection.
    apply omap_ids. intros e. apply thuadat_of_id. }
  split; [exact E|split].
  - apply (proj1 (Forall_map ThuaDat.thuaDatID (fun i => i <> EmptyString) _)).
    rewrite E. apply omap_nonempty.
  - rewrite <- (length_map ThuaDat.thuaDatID), E. apply omap_length_le.
Qed.

Lemma canhan_of_id (e : Element) :
  CaNhan.caNhanID <$> canhan_of e = id_of "caNhanID" e.
Proof.
  unfold canhan_of, id_of. destruct (_get_text (Some e) "caNhanID" None) as [i|];
    [|reflexivity].
  destruct (truthy i); reflexivity.
Qed.

(** X2.  The person records are, in document order, one per [CaNhan] node
    of the first person collection that carries a non-empty identifier. *)
Theorem extract_canhan_ids (root : Element) :
  List.map CaNhan.caNhanID (extract_canhan_data root)
  = omap (id_of "caNhanID") (collection_nodes root "CaNhanCollection" "CaNhan")
  /\ Forall (fun r => CaNhan.caNhanID r <> EmptyString) (extract_canhan_data root)
  /\ (length (extract_canhan_data root)
      <= length (collection_nodes root "CaNhanCollection" "CaNhan"))%nat.
Proof.
  assert (E : List.map CaNhan.caNhanID (extract_canhan_data root)
              = omap (id_of "caNhanID")
                     (collection_nodes root "CaNhanCollection" "CaNhan")).
  { unfold extract_canhan_data. rewrite over_collection.
    apply omap_ids. intros e. apply canhan_of_id. }
  split; [exact E|split].
  - apply (proj1 (Forall_map CaNhan.caNhanID (fun i => i <> EmptyString) _)).
    rewrite E. apply omap_nonempty.
  - rewrite <- (length_map CaNhan.caNhanID), E. apply omap_length_le.
Qed.

Lemma giaychungnhan_of_id (e : Element) :
  GiayChungNhan.giayChungNhanID <$> giaychungnhan_of e = id_of "giayChungNhanID" e.
Proof.
  unfold giaychungnhan_of, id_of.
  destruct (_get_text (Some e) "giayChungNhanID" None) as [i|]; [|reflexivity].
  destruct (truthy i); reflexivity.
Qed.

(** X3.  The certificate records are, in document order, one per
    [GiayChungNhan] node of the first certificate collection that carries a
    non-empty identifier. *)
Theorem extract_giaychungnhan_ids (root : Element) :
  List.map GiayChungNhan.giayChungNhanID (extract_giaychungnhan_data root)
  = omap (id_of "giayChungNhanID")
         (collection_nodes root "GiayChungNhanCollection" "GiayChungNhan")
  /\ Forall (fun r => GiayChungNhan.giayChungNhanID r <> EmptyString)
            (extract_giaychungnhan_data root)
  /\ (length (extract_giaychungnhan_data root)
      <= length (collection_nodes root "GiayChungNhanCollection" "GiayChungNhan"))%nat.
Proof.
  assert (E : List.map GiayChungNhan.giayChungNhanID (extract_giaychungnhan_data root)
              = omap (id_of "giayChungNhanID")
                     (collection_nodes root "GiayChungNhanCollection" "GiayChungNhan")).
  { unfold extract_giaychungnhan_data. rewrite over_collection.
    apply omap_ids. intros e. apply giaychungnhan_of_id. }
  split; [exact E|split].
  - apply (proj1 (Forall_map GiayChungNhan.giayChungNhanID (fun i => i <> EmptyString) _)).
    rewrite E. apply omap_nonempty.
  - rewrite <- (length_map GiayChungNhan.giayChungNhanID), E. apply omap_length_le.
Qed.

Lemma thanh_phan_of_fields (a b c d : option string) (l : list Element) :
  Forall (fun r => HoSo.hoSoDangKySoID r = a /\ HoSo.giayChungNhanID r = b
                   /\ HoSo.maHoSoLuuTru r = c /\ HoSo.maDVHCXa r = d)
         (omap (thanh_phan_of a b c d) l).
Proof.
  induction l as [|x l IH]; [constructor|].
  cbn [omap list_omap]. rewrite thanh_phan_of_component.
  destruct (component_id x); [|exact IH].
  constructor; [repeat split|exact IH].
Qed.

(** X4.  Every component record of a case carries the four fields read
    once from the case node (case identifier, certificate identifier,
    archive code, area code); a case gives one record per component with a
    non-empty identifier, in order; and the extracted list is the
    concatenation of the records of the case nodes of the first case
    collection, in document order. *)
Theorem hoso_inherits_case_fields (hoso : Element) :
  Forall (fun r =>
            HoSo.hoSoDangKySoID r = _get_text (Some hoso) "hoSoDangKySoID" None
            /\ HoSo.giayChungNhanID r = _get_text (Some hoso) "giayChungNhanID" None
            /\ HoSo.maHoSoLuuTru r = _get_text (Some hoso) "maHoSoLuuTru" None
            /\ HoSo.maDVHCXa r = _get_text (Some hoso) "maDVHCXa" None)
         (hoso_of hoso)
  /\ List.map HoSo.thanhPhanHoSoID (hoso_of hoso) = omap component_id (components hoso)
  /\ (forall root,
         extract_hoso_data root
         = List.flat_map hoso_of
             (collection_nodes root "HoSoDangKyDatDaiCollection" "HoSoDangKyDatDai")).
Proof.
  split; [|split].
  - unfold hoso_of.
    destruct (find hoso "ThanhPhanHoSoDangKyDatDaiCollection") as [c|]; [|constructor].
    destruct (truth c); [|constructor]. apply thanh_phan_of_fields.
  - unfold hoso_of, components.
    destruct (find hoso "ThanhPhanHoSoDangKyDatDaiCollection") as [c|]; [|reflexivity].
    destruct (truth c) eqn:E.
    + apply thanh_phan_of_id.
    + rewrite (truth_false_findall _ _ E). reflexivity.
  - intros root. unfold extract_hoso_data, collection_nodes.
    destruct (find_desc root "HoSoDangKyDatDaiCollection") as [c|]; [|reflexivity].
    destruct (truth c) eqn:E; [reflexivity|].
    rewrite (truth_false_findall _ _ E). reflexivity.
Qed.

Lemma vo_chong_fold (l : list Element) (d : string) :
  List.fold_right (fun n m => add_vo_chong m n) ∅ l !! d
  = if truthy d
    then vo_chong_values
           <$> List.find (fun n => oeqb (_get_text (Some n) "voChongID" None) d) l
    else None.
Proof.
  induction l as [|n l IH]; cbn [List.fold_right List.find].
  - rewrite lookup_empty. destruct (truthy d); reflexivity.
  - unfold add_vo_chong at 1, oeqb at 1.
    destruct (_get_text (Some n) "voChongID" None) as [i|] eqn:Hi; [|exact IH].
    destruct (String.eqb_spec i d) as [->|Hne].
    + destruct (truthy d) eqn:Ht; [|exact IH].
      rewrite lookup_insert_eq. cbn [fmap option_fmap option_map].
      unfold vo_chong_values. rewrite Hi. reflexivity.
    + destruct (truthy i); [|exact IH].
      rewrite lookup_insert_ne by exact Hne. exact IH.
Qed.

(** X5.  The owner-pair map gives, for a non-empty identifier, the values
    of the last owner-pair node of the first owner-pair collection that
    carries this identifier: a later node replaces an earlier one with the
    same identifier; the empty identifier is never a key. *)
Theorem last_owner_pair_wins (root : Element) (d : string) :
  build_vo_chong_map root !! d
  = if truthy d
    then vo_chong_values <$> last_vo_chong d (vo_chong_nodes root)
    else None.
Proof.
  unfold build_vo_chong_map, vo_chong_nodes, last_vo_chong.
  destruct (find_desc root "VoChongCollection") as [c|].
  - destruct (truth c) eqn:E.
    + rewrite <- vo_chong_fold.
      rewrite (fold_left_rev_right (fun n m => add_vo_chong m n)). reflexivity.
    + rewrite (truth_false_findall _ _ E), lookup_empty.
      destruct (truthy d); reflexivity.
  - rewrite lookup_empty. destruct (truthy d); reflexivity.
Qed.

(** X6.  A person node without an identity-document collection, or whose
    collection has no [GiayToTuyThan] entry, is extracted with its eight
    identity-document fields null. *)
Theorem person_without_identity_document (ca_nhan : Element) (r : CaNhan.t) :
  canhan_of ca_nhan = Some r ->
  (find ca_nhan "GiayToTuyThanCollection" = None
   \/ exists c, find ca_nhan "GiayToTuyThanCollection" = Some c
                /\ find c "GiayToTuyThan" = None) ->
  CaNhan.giay_to r = no_giay_to.
Proof.
  intros Hr H. unfold canhan_of in Hr.
  destruct (_get_text (Some ca_nhan) "caNhanID" None) as [i|]; [|discriminate].
  destruct (truthy i); [|discriminate].
  assert (E : giay_to_info_of ca_nhan = no_giay_to).
  { unfold giay_to_info_of. destruct H as [-> | (c & -> & ->)]; [reflexivity|].
    destruct (truth c); reflexivity. }
  rewrite E in Hr. injection Hr as <-. reflexivity.
Qed.

Lemma person_without_identity_document_witness :
  let ca_nhan := node "CaNhan" [leaf "caNhanID" "A"; node "GiayToTuyThanCollection" []] in
  exists r, canhan_of ca_nhan = Some r /\ CaNhan.giay_to r = no_giay_to.
Proof.
  intros ca_nhan. eexists. split; [vm_compute; reflexivity|].
  apply (person_without_identity_document ca_nhan _ eq_refl).
  right. exists (node "GiayToTuyThanCollection" []). split; reflexivity.
Defined.

End MoreExtraction.

(** * Properties of the counters, the worker and the loop of [run] *)

Section Counters.

Import ThreadSafeStats Worker Run Terms.

Lemma increment_lookup (key k : string) (v : Z) (s : gmap string Z) :
  increment key v s !! k
  = (fun x => if String.eqb key k then (x + v)%Z else x) <$> s !! k.
Proof.
  unfold increment. destruct (String.eqb_spec key k) as [->|Hne].
  - destruct (s !! k) as [x|] eqn:E.
    + rewrite lookup_insert_eq. reflexivity.
    + rewrite E. reflexivity.
  - destruct (s !! key) as [x|].
    + rewrite lookup_insert_ne by exact Hne. destruct (s !! k); reflexivity.
    + destruct (s !! k); reflexivity.
Qed.

Lemma add_stats_lookup (items : list (string * Z)) (k : string) (s : gmap string Z) :
  add_stats items s !! k = (fun x => (x + total_for k items)%Z) <$> s !! k.
Proof.
  revert s. induction items as [|[k1 v1] items IH]; intros s; cbn [add_stats List.fold_left].
  - destruct (s !! k) as [x|]; cbn; [|reflexivity]. f_equal. lia.
  - fold (add_stats items (increment k1 v1 s)). rewrite IH, increment_lookup.
    cbn [fst snd total_for List.fold_right].
    fold (total_for k items).
    destruct (s !! k) as [x|]; cbn; [|reflexivity].
    destruct (String.eqb k1 k); f_equal; lia.
Qed.

(** X7.  The counters keep their keys: [increment], [add_stats] and [reset]
    leave the set of keys as it is, an increment under a key that is not a
    counter changes nothing, and after [reset] every counter is zero. *)
Theorem stats_keys_fixed (s : gmap string Z) :
  (forall key v, dom (increment key v s) = dom s)
  /\ (forall items, dom (add_stats items s) = dom s)
  /\ dom (reset s) = dom s
  /\ (forall key v, s !! key = None -> increment key v s = s)
  /\ (forall k v, reset s !! k = Some v -> v = 0%Z).
Proof.
  split; [|split; [|split; [|split]]].
  - intros key v. apply set_eq. intros k.
    rewrite !elem_of_dom, increment_lookup, fmap_is_Some. reflexivity.
  - intros items. apply set_eq. intros k.
    rewrite !elem_of_dom, add_stats_lookup, fmap_is_Some. reflexivity.
  - unfold reset. apply dom_fmap_L.
  - intros key v H. unfold increment. rewrite H. reflexivity.
  - intros k v. unfold reset. rewrite lookup_fmap.
    destruct (s !! k); cbn; congruence.
Qed.

(** X8.  After [add_stats] a counter holds its former value plus the sum
    of the values the items give for its key; so the counters after the
    statistics of two files have been added do not depend on which file was
    added first. *)
Theorem add_stats_commutes (a b : list (string * Z)) (s : gmap string Z) :
  (forall k, add_stats a s !! k = (fun x => (x + total_for k a)%Z) <$> s !! k)
  /\ add_stats a (add_stats b s) = add_stats b (add_stats a s).
Proof.
  split; [intros k; apply add_stats_lookup|].
  apply map_eq. intros k. rewrite !add_stats_lookup.
  destruct (s !! k) as [x|]; cbn; [|reflexivity]. f_equal. lia.
Qed.

Lemma worker_fails (stats : gmap string Z) (store : Pg.db) (u : unit_of_work) :
  succeeds u = false ->
  process_single_file_worker stats store u
  = (increment "files_failed" 1 stats, store, (false, [])).
Proof.
  unfold succeeds, process_single_file_worker.
  destruct (connects u); [|reflexivity]. destruct (parsed u); [discriminate|reflexivity].
Qed.

Lemma worker_succeeds (stats : gmap string Z) (store : Pg.db) (u : unit_of_work) :
  succeeds u = true ->
  exists store' file_stats,
    process_single_file_worker stats store u
    = (add_stats (stats_items file_stats) (increment "files_processed" 1 stats),
       store', (true, stats_items file_stats))
    /\ forall stats2, process_single_file_worker stats2 store u
                      = (add_stats (stats_items file_stats)
                                   (increment "files_processed" 1 stats2),
                         store', (true, stats_items file_stats)).
Proof.
  unfold succeeds, process_single_file_worker.
  destruct (connects u); [|discriminate]. destruct (parsed u) as [root|]; [|discriminate].
  intros _. cbn [negb].
  destruct (XMLToDBExtractor.process_single_file_worker store (unit_faults u) root)
    as [c fs].
  exists (Pg.committed c), fs. split; [reflexivity|]. intros stats2. reflexivity.
Qed.

Lemma successes_cons {A : Type} (ok : A -> bool) (x : A) (l : list A) :
  successes ok (x :: l) = ((if ok x then 1 else 0) + successes ok l)%Z.
Proof.
  unfold successes, Run.len. cbn [List.filter]. destruct (ok x); cbn [length]; lia.
Qed.

(** X9.  Every file given to the workers is counted once: after the files
    of a list have been handled, [files_processed] has grown by the number
    of files whose connection opened and whose XML parsed, and
    [files_failed] by the number of the others. *)
Theorem every_file_counted_once (l : list unit_of_work) (stats : gmap string Z)
        (store : Pg.db) (p f : Z) :
  stats !! "files_processed" = Some p ->
  stats !! "files_failed" = Some f ->
  fst (process_files stats store l) !! "files_processed"
  = Some (p + successes succeeds l)%Z
  /\ fst (process_files stats store l) !! "files_failed"
     = Some (f + (Run.len l - successes succeeds l))%Z.
Proof.
  revert stats store p f. induction l as [|u l IH]; intros stats store p f Hp Hf.
  - cbn [process_files fst]. rewrite Hp, Hf. unfold successes, Run.len.
    cbn [List.filter length]. split; f_equal; lia.
  - cbn [process_files]. rewrite successes_cons.
    replace (Run.len (u :: l)) with (1 + Run.len l)%Z
      by (unfold Run.len; cbn [length]; lia).
    destruct (succeeds u) eqn:Hu.
    + destruct (worker_succeeds stats store u Hu) as (store' & fs & -> & _).
      destruct (IH (add_stats (stats_items fs) (increment "files_processed" 1 stats))
                   store' (p + 1)%Z f) as [H1 H2].
      * rewrite add_stats_lookup, increment_lookup, Hp. cbn. f_equal. lia.
      * rewrite add_stats_lookup, increment_lookup, Hf. cbn. f_equal. lia.
      * rewrite H1, H2. split; f_equal; lia.
    + rewrite (worker_fails stats store u Hu).
      destruct (IH (increment "files_failed" 1 stats) store p (f + 1)%Z) as [H1 H2].
      * rewrite increment_lookup, Hp. reflexivity.
      * rewrite increment_lookup, Hf. reflexivity.
      * rewrite H1, H2. split; f_equal; lia.
Qed.

Lemma every_file_counted_once_witness :
  let bad := mkUnit true None [] in
  let good := mkUnit true (Some Notions.scenario_doc) [] in
  fst (process_files init Pg.empty_db [good; bad; good]) !! "files_processed"
  = Some (0 + successes succeeds [good; bad; good])%Z
  /\ fst (process_files init Pg.empty_db [good; bad; good]) !! "files_failed"
     = Some (0 + (Run.len [good; bad; good] - successes succeeds [good; bad; good]))%Z.
Proof.
  intros bad good.
  apply (every_file_counted_once [good; bad; good] init Pg.empty_db 0 0); reflexivity.
Defined.

(** X10.  A file that fails leaves no trace but in [files_failed]: the
    store and every other counter after a list of files are those after the
    files of the list that succeed, handled in the same order. *)
Theorem failures_leave_no_trace (l : list unit_of_work) (s1 s2 : gmap string Z)
        (store : Pg.db) :
  agree_but_failed s1 s2 ->
  snd (process_files s1 store l) = snd (process_files s2 store (List.filter succeeds l))
  /\ agree_but_failed (fst (process_files s1 store l))
                      (fst (process_files s2 store (List.filter succeeds l))).
Proof.
  revert s1 s2 store. induction l as [|u l IH]; intros s1 s2 store H.
  - split; [reflexivity|exact H].
  - cbn [List.filter]. destruct (succeeds u) eqn:Hu.
    + cbn [process_files].
      destruct (worker_succeeds s1 store u Hu) as (store' & fs & -> & E2).
      rewrite (E2 s2). apply IH.
      intros k Hk. rewrite !add_stats_lookup, !increment_lookup, (H k Hk). reflexivity.
    + cbn [process_files]. rewrite (worker_fails s1 store u Hu). apply IH.
      intros k Hk. rewrite increment_lookup, (H k Hk).
      destruct (String.eqb_spec "files_failed" k) as [E|_]; [congruence|].
      destruct (s2 !! k); reflexivity.
Qed.

Lemma failures_leave_no_trace_witness :
  let bad := mkUnit false None [] in
  let good := mkUnit true (Some Notions.scenario_doc) [] in
  snd (process_files init Pg.empty_db [good; bad])
  = snd (process_files init Pg.empty_db (List.filter succeeds [good; bad]))
  /\ agree_but_failed (fst (process_files init Pg.empty_db [good; bad]))
                      (fst (process_files init Pg.empty_db
                                          (List.filter succeeds [good; bad]))).
Proof.
  intros bad good.
  apply (failures_leave_no_trace [good; bad] init init Pg.empty_db).
  intros k _. reflexivity.
Defined.

Lemma successes_le_len {A : Type} (ok : A -> bool) (l : list A) :
  (0 <= successes ok l <= Run.len l)%Z.
Proof.
  unfold successes, Run.len. pose proof (filter_length_le ok l). lia.
Qed.

Lemma limited_positive (n : Z) : (0 < n)%Z -> limited (Some n) = true.
Proof.
  intros H. unfold limited.
  destruct (Z.eqb_spec n 0); [lia|]. destruct (Z.ltb_spec 0 n); [reflexivity|lia].
Qed.

(** X11.  With a positive limit the files that succeed never outnumber
    the limit, whatever the directories hold and whichever files fail. *)
Theorem limit_bounds_successes {A : Type} (ok : A -> bool) (n so_far : Z)
        (xml_dirs : list (list A)) :
  (0 < n)%Z -> (so_far <= n)%Z ->
  (so_far + total_successes ok (submitted (Some n) ok so_far xml_dirs) <= n)%Z.
Proof.
  intros Hn. revert so_far. induction xml_dirs as [|xs dirs IH]; intros so_far Hs.
  - cbn. lia.
  - cbn [submitted]. destruct xs as [|x xs]; [apply IH, Hs|].
    rewrite (limited_positive n Hn). change (default 0%Z (Some n)) with n.
    destruct (Z.leb_spec (n - so_far) 0) as [Hr|Hr];
      [cbn [total_successes List.fold_right]; lia|].
    set (chosen := if (n - so_far <? Run.len (x :: xs))%Z
                   then firstn (Z.to_nat (n - so_far)) (x :: xs) else x :: xs).
    assert (Hc : (Run.len chosen <= n - so_far)%Z).
    { unfold chosen. destruct (Z.ltb_spec (n - so_far) (Run.len (x :: xs))) as [Hl|Hl].
      - unfold Run.len. rewrite length_firstn. lia.
      - exact Hl. }
    pose proof (successes_le_len ok chosen) as Hsc.
    cbn [total_successes List.fold_right].
    assert (Hi : (so_far + successes ok chosen <= n)%Z) by lia.
    specialize (IH (so_far + successes ok chosen)%Z Hi).
    unfold total_successes in IH. lia.
Qed.

Lemma limit_bounds_successes_witness :
  let ok := fun f : string => negb (String.eqb f "bad.xml") in
  let xml_dirs := [["a.xml"; "bad.xml"; "b.xml"]; []; ["c.xml"; "d.xml"]] in
  (0 + total_successes ok (submitted (Some 2%Z) ok 0 xml_dirs) <= 2)%Z.
Proof. intros ok xml_dirs. apply limit_bounds_successes; lia. Defined.

(** X12.  Without a limit, and also with the limit 0 or a negative limit,
    every file of every directory is submitted: the submitted lists are the
    directories that hold a file, in order and in full. *)
Theorem no_limit_submits_all {A : Type} (limit : option Z) (ok : A -> bool)
        (so_far : Z) (xml_dirs : list (list A)) :
  limited limit = false ->
  submitted limit ok so_far xml_dirs = List.filter nonempty xml_dirs
  /\ concat (submitted limit ok so_far xml_dirs) = concat xml_dirs.
Proof.
  intros Hl. revert so_far. induction xml_dirs as [|xs dirs IH]; intros so_far.
  - split; reflexivity.
  - cbn [submitted List.filter]. destruct xs as [|x xs].
    + cbn [nonempty concat app]. apply IH.
    + rewrite Hl. cbn [nonempty]. destruct (IH (so_far + successes ok (x :: xs))%Z) as [E1 E2].
      rewrite E1. split; [reflexivity|]. cbn [concat]. rewrite <- E1, E2. reflexivity.
Qed.

Lemma no_limit_submits_all_witness :
  let ok := fun f : string => negb (String.eqb f "bad.xml") in
  let xml_dirs := [["a.xml"; "bad.xml"]; []; ["c.xml"]] in
  submitted (Some (-3)%Z) ok 0 xml_dirs = List.filter nonempty xml_dirs
  /\ concat (submitted (Some (-3)%Z) ok 0 xml_dirs) = concat xml_dirs.
Proof. intros ok xml_dirs. apply no_limit_submits_all. reflexivity. Defined.

End Counters.

(** * Further properties of the loader *)

Section MoreLoader.

Import Pg DatabaseInserter XMLToDBExtractor Notions Terms.








(** ** A parcel whose owner is unknown *)

Lemma execute_insert_avoids (v k : string) (c : conn) (r : row) :
  row_avoids v k r ->
  canhan (working c) !! v = None -> thuadat (working c) !! k = None ->
  canhan (working (fst (execute_insert c r))) !! v = None
  /\ thuadat (working (fst (execute_insert c r))) !! k = None.
Proof.
  intros Hr Hv Hk. unfold execute_insert.
  destruct (aborted c); [split; assumption|].
  destruct (next_fault (faults c)) as [[|] fs]; [split; assumption|].
  destruct r as [t|p|g|h]; cbn [insert_or_skip row_avoids] in *.
  - destruct (thuadat (working c) !! ThuaDat.thuaDatID t); [split; assumption|].
    destruct (_ && _); [|split; assumption]. cbn.
    rewrite lookup_insert_ne by exact Hr. split; assumption.
  - destruct (canhan (working c) !! CaNhan.caNhanID p); [split; assumption|]. cbn.
    rewrite lookup_insert_ne by exact Hr. split; assumption.
  - destruct (giaychungnhan (working c) !! _); split; assumption.
  - destruct (hoso (working c) !! _); [split; assumption|].
    destruct (references _ _); split; assumption.
Qed.

Lemma run_batch_avoids (v k : string) (rows : list row) (c : conn) :
  Forall (row_avoids v k) rows ->
  canhan (working c) !! v = None -> thuadat (working c) !! k = None ->
  canhan (working (fst (run_batch c rows))) !! v = None
  /\ thuadat (working (fst (run_batch c rows))) !! k = None.
Proof.
  revert c. induction rows as [|r rows IH]; intros c H Hv Hk; [split; assumption|].
  inversion H as [|? ? Hr Hrows]; subst. cbn [run_batch].
  destruct (execute_insert_avoids v k c r Hr Hv Hk) as [Hv1 Hk1].
  destruct (execute_insert c r) as [c1 [[]|]]; cbn [fst] in *.
  - apply IH; assumption.
  - split; assumption.
Qed.

Lemma try_execute_batch_avoids (store : db) (v k : string) (c : conn)
      (rows : list row) (n : Z) (msg : string) :
  canhan store !! v = None -> thuadat store !! k = None ->
  Forall (row_avoids v k) rows ->
  committed c = store ->
  canhan (working c) !! v = None -> thuadat (working c) !! k = None ->
  committed (fst (try_execute_batch c rows n msg)) = store
  /\ canhan (working (fst (try_execute_batch c rows n msg))) !! v = None
  /\ thuadat (working (fst (try_execute_batch c rows n msg))) !! k = None.
Proof.
  intros Sv Sk Hrows Hc Hv Hk. unfold try_execute_batch, execute_batch.
  pose proof (run_batch_avoids v k rows (record_event (EvExecuteBatch rows) c) Hrows Hv Hk)
    as [Hv1 Hk1].
  pose proof (run_batch_keeps rows (record_event (EvExecuteBatch rows) c)) as [Hc1 _].
  destruct (run_batch _ rows) as [c1 [[]|]]; cbn [fst committed working record_event rollback print] in *.
  - repeat split; congruence.
  - rewrite Hc1, Hc. repeat split; assumption.
Qed.

Lemma run_batch_unknown_owner (v : string) (t : ThuaDat.t) (post pre : list ThuaDat.t)
      (c : conn) :
  ThuaDat.voID t = Some v \/ ThuaDat.chongID t = Some v ->
  Forall (fun x => ThuaDat.thuaDatID x <> ThuaDat.thuaDatID t) pre ->
  canhan (working c) !! v = None ->
  thuadat (working c) !! ThuaDat.thuaDatID t = None ->
  snd (run_batch c (List.map RThuaDat (pre ++ t :: post))) = Raised.
Proof.
  intros Ho. revert c. induction pre as [|x pre IH]; intros c Hpre Hv Hk.
  - cbn [app List.map run_batch]. unfold execute_insert.
    destruct (aborted c); [reflexivity|].
    destruct (next_fault (faults c)) as [[|] fs]; [reflexivity|].
    cbn [insert_or_skip]. rewrite Hk.
    assert (E : references (canhan (working c)) (ThuaDat.voID t)
                && references (canhan (working c)) (ThuaDat.chongID t) = false).
    { destruct Ho as [-> | ->]; cbn [references]; rewrite Hv;
        [reflexivity|apply andb_false_r]. }
    rewrite E. reflexivity.
  - inversion Hpre as [|? ? Hx Hpre']; subst. cbn [app List.map run_batch].
    destruct (execute_insert_avoids v (ThuaDat.thuaDatID t) c (RThuaDat x) Hx Hv Hk)
      as [Hv1 Hk1].
    destruct (execute_insert c (RThuaDat x)) as [c1 [[]|]]; cbn [fst] in *;
      [|reflexivity].
    apply IH; assumption.
Qed.

Lemma execute_insert_hoso_same (c : conn) (h : HoSo.t) :
  same_but_hoso (working (fst (execute_insert c (RHoSo h)))) (working c).
Proof.
  unfold execute_insert. destruct (aborted c); [repeat split|].
  destruct (next_fault (faults c)) as [[|] fs]; [repeat split|].
  cbn [insert_or_skip]. destruct (hoso (working c) !! _); [repeat split|].
  destruct (references _ _); repeat split.
Qed.

Lemma run_batch_hoso_same (l : list HoSo.t) (c : conn) :
  same_but_hoso (working (fst (run_batch c (List.map RHoSo l)))) (working c).
Proof.
  revert c. induction l as [|h l IH]; intros c; [repeat split|].
  cbn [List.map run_batch].
  pose proof (execute_insert_hoso_same c h) as (H1 & H2 & H3).
  destruct (execute_insert c (RHoSo h)) as [c1 [[]|]]; cbn [fst] in *.
  - destruct (IH c1) as (K1 & K2 & K3). repeat split; congruence.
  - repeat split; assumption.
Qed.

Lemma insert_hoso_same (store : db) (c : conn) (l : list HoSo.t) :
  committed c = store -> same_but_hoso (working c) store ->
  committed (fst (fst (insert_hoso c l))) = store
  /\ same_but_hoso (working (fst (fst (insert_hoso c l)))) store.
Proof.
  intros Hc Hw. destruct l as [|x l]; [split; assumption|].
  unfold insert_hoso.
  pose proof (check_gcn_ids_keeps c (unique_gcn_ids (x :: l))) as [Hk Hk'].
  destruct (check_gcn_ids c (unique_gcn_ids (x :: l))) as [c1 valid].
  cbn [fst] in Hk, Hk'. unfold try_execute_batch, execute_batch.
  set (rows := List.map (validate valid) (x :: l)).
  pose proof (run_batch_hoso_same rows (record_event (EvExecuteBatch (List.map RHoSo rows)) c1))
    as Hs.
  pose proof (run_batch_keeps (List.map RHoSo rows)
                (record_event (EvExecuteBatch (List.map RHoSo rows)) c1)) as [Hc1 _].
  destruct (run_batch _ (List.map RHoSo rows)) as [c2 [[]|]];
    cbn [fst committed working record_event rollback print] in *.
  - split; [congruence|]. destruct Hs as (K1 & K2 & K3), Hw as (W1 & W2 & W3).
    repeat split; congruence.
  - rewrite Hc1, Hk, Hc. repeat split.
Qed.

(** X14.  A parcel that is new to the store and names as an owner a person
    who is neither in the store nor in the document makes the parcel batch
    fail on the foreign key, for every fault schedule: the parcels are
    reported as (0, batch size), and the rollback also discards the persons
    and the certificates the same load had inserted; the committed store
    has the parcels, persons and certificates it had before. *)
Theorem unknown_owner_discards_document
        (store : db) (fs : list bool) (v : string)
        (pre post : list ThuaDat.t) (t : ThuaDat.t)
        (canhan_data : list CaNhan.t) (gcn_data : list GiayChungNhan.t)
        (hoso_data : list HoSo.t) :
  Forall (fun x => ThuaDat.thuaDatID x <> ThuaDat.thuaDatID t) pre ->
  thuadat store !! ThuaDat.thuaDatID t = None ->
  ThuaDat.voID t = Some v \/ ThuaDat.chongID t = Some v ->
  canhan store !! v = None ->
  Forall (fun p => CaNhan.caNhanID p <> v) canhan_data ->
  let result := load_records (connect store fs) (pre ++ t :: post) canhan_data
                             gcn_data hoso_data in
  thuadat_inserted (snd result) = 0%Z
  /\ thuadat_skipped (snd result) = len (pre ++ t :: post)
  /\ same_but_hoso (committed (fst result)) store.
Proof.
  intros Hpre Hk Ho Hv Hcn. cbv zeta. unfold load_records.
  set (k := ThuaDat.thuaDatID t) in *.
  (* persons *)
  assert (J1 : committed (fst (insert_canhan (connect store fs) canhan_data)) = store
               /\ canhan (working (fst (insert_canhan (connect store fs) canhan_data))) !! v
                  = None
               /\ thuadat (working (fst (insert_canhan (connect store fs) canhan_data))) !! k
                  = None).
  { destruct canhan_data as [|p l]; [repeat split; assumption|].
    apply try_execute_batch_avoids; try assumption; try reflexivity.
    apply List.Forall_forall. intros r Hr. apply in_map_iff in Hr as (q & <- & Hq).
    rewrite List.Forall_forall in Hcn. exact (Hcn q Hq). }
  destruct (insert_canhan (connect store fs) canhan_data) as [c1 [a1 b1]].
  cbn [fst] in J1. destruct J1 as (Hc1 & Hv1 & Hk1).
  (* certificates *)
  assert (J2 : committed (fst (insert_giaychungnhan c1 gcn_data)) = store
               /\ canhan (working (fst (insert_giaychungnhan c1 gcn_data))) !! v = None
               /\ thuadat (working (fst (insert_giaychungnhan c1 gcn_data))) !! k = None).
  { destruct gcn_data as [|g l]; [repeat split; assumption|].
    apply try_execute_batch_avoids; try assumption.
    apply List.Forall_forall. intros r Hr. apply in_map_iff in Hr as (q & <- & Hq).
    exact I. }
  destruct (insert_giaychungnhan c1 gcn_data) as [c2 [a2 b2]].
  cbn [fst] in J2. destruct J2 as (Hc2 & Hv2 & Hk2).
  (* parcels *)
  assert (J3 : exists c3, insert_thuadat c2 (pre ++ t :: post)
                          = (c3, (0, len (pre ++ t :: post))%Z)
                          /\ committed c3 = store /\ working c3 = store).
  { unfold insert_thuadat. destruct (pre ++ t :: post) as [|y l] eqn:E;
      [destruct pre; discriminate|]. rewrite <- E.
    unfold try_execute_batch, execute_batch.
    set (rows := List.map RThuaDat (pre ++ t :: post)).
    pose proof (run_batch_unknown_owner v t post pre (record_event (EvExecuteBatch rows) c2)
                  Ho Hpre Hv2 Hk2) as Hraised.
    pose proof (run_batch_keeps rows (record_event (EvExecuteBatch rows) c2)) as [Hkeep _].
    fold rows in Hraised.
    destruct (run_batch (record_event (EvExecuteBatch rows) c2) rows) as [c' o].
    cbn [snd fst] in *. subst o.
    eexists. split; [reflexivity|].
    cbn [committed working rollback print record_event] in *.
    split; congruence. }
  destruct J3 as (c3 & -> & Hc3 & Hw3).
  (* components *)
  pose proof (insert_hoso_same store c3 hoso_data Hc3) as J4.
  destruct (insert_hoso c3 hoso_data) as [[c4 l4] [a4 b4]]. cbn [fst] in J4.
  destruct J4 as [Hc4 Hw4]; [rewrite Hw3; repeat split|].
  cbn [fst snd thuadat_inserted thuadat_skipped].
  split; [reflexivity|]. split; [reflexivity|].
  unfold commit. cbn [committed]. destruct (aborted c4); [rewrite Hc4; repeat split|exact Hw4].
Qed.

Lemma unknown_owner_discards_document_witness :
  let result := load_records (connect empty_db []) ([] ++ stray_parcel :: [])
                             (XMLParser.extract_canhan_data scenario_doc)
                             (XMLParser.extract_giaychungnhan_data scenario_doc) [] in
  thuadat_inserted (snd result) = 0%Z
  /\ thuadat_skipped (snd result) = len ([] ++ stray_parcel :: [])
  /\ same_but_hoso (committed (fst result)) empty_db.
Proof.
  apply (unknown_owner_discards_document empty_db [] "Z1" [] [] stray_parcel).
  - constructor.
  - reflexivity.
  - left. reflexivity.
  - reflexivity.
  - vm_compute. repeat constructor; discriminate.
Defined.

(** ** What a batch of persons leaves in the table *)

Lemma run_batch_canhan_quiet (rows : list CaNhan.t) (c : conn) :
  aborted c = false -> quiet (faults c) ->
  exists c',
    run_batch c (List.map RCaNhan rows) = (c', Returned tt)
    /\ thuadat (working c') = thuadat (working c)
    /\ giaychungnhan (working c') = giaychungnhan (working c)
    /\ hoso (working c') = hoso (working c)
    /\ forall k, canhan (working c') !! k
                 = match canhan (working c) !! k with
                   | Some v => Some v
                   | None => first_person k rows
                   end.
Proof.
  revert c. induction rows as [|p rows IH]; intros c Ha Hq.
  - exists c. repeat split. intros k. cbn. destruct (canhan (working c) !! k); reflexivity.
  - destruct (next_fault_quiet _ Hq) as (fs & Hnf & Hfs).
    cbn [List.map run_batch]. unfold execute_insert. rewrite Ha, Hnf.
    cbn [insert_or_skip].
    destruct (canhan (working c) !! CaNhan.caNhanID p) as [v|] eqn:Hv.
    + destruct (IH (mkConn (committed c) (working c) false fs 0 (log c)))
        as (c' & E & H1 & H2 & H3 & Hk); [reflexivity|exact Hfs|].
      exists c'. cbn [working] in *. split; [exact E|].
      split; [exact H1|]. split; [exact H2|]. split; [exact H3|].
      intros k. rewrite Hk. destruct (canhan (working c) !! k) as [w|] eqn:Hw;
        [reflexivity|].
      unfold first_person. cbn [List.find].
      destruct (String.eqb_spec (CaNhan.caNhanID p) k) as [Heq|]; [congruence|].
      reflexivity.
    + set (d := mkDb (thuadat (working c))
                     (<[CaNhan.caNhanID p := p]> (canhan (working c)))
                     (giaychungnhan (working c)) (hoso (working c))).
      destruct (IH (mkConn (committed c) d false fs 1 (log c)))
        as (c' & E & H1 & H2 & H3 & Hk); [reflexivity|exact Hfs|].
      exists c'. cbn [working thuadat canhan giaychungnhan hoso d] in *.
      split; [exact E|]. split; [exact H1|]. split; [exact H2|]. split; [exact H3|].
      intros k. rewrite Hk. unfold first_person. cbn [List.find].
      destruct (String.eqb_spec (CaNhan.caNhanID p) k) as [Heq|Hne].
      * rewrite <- Heq, lookup_insert_eq, Hv. reflexivity.
      * rewrite lookup_insert_ne by exact Hne. reflexivity.
Qed.

(** X15.  On a connection that meets no failure, after [insert_canhan]
    the person table gives, for every identifier, the row it had before, or
    else the first record of the batch with that identifier: an existing
    row is kept as it is, of two records with one identifier the first is
    stored, and the other three tables are untouched. *)
Theorem insert_canhan_lookup (c : conn) (data_list : list CaNhan.t) :
  aborted c = false -> quiet (faults c) ->
  exists c' counts,
    insert_canhan c data_list = (c', counts)
    /\ (forall k, canhan (working c') !! k
                  = match canhan (working c) !! k with
                    | Some v => Some v
                    | None => first_person k data_list
                    end)
    /\ thuadat (working c') = thuadat (working c)
    /\ giaychungnhan (working c') = giaychungnhan (working c)
    /\ hoso (working c') = hoso (working c).
Proof.
  intros Ha Hq. destruct data_list as [|p l].
  - exists c, (0, 0)%Z.
    split; [reflexivity|]. split; [|repeat split].
    intros k. cbn. destruct (canhan (working c) !! k); reflexivity.
  - unfold insert_canhan, try_execute_batch, execute_batch.
    destruct (run_batch_canhan_quiet (p :: l)
                (record_event (EvExecuteBatch (List.map RCaNhan (p :: l))) c) Ha Hq)
      as (c' & E & H1 & H2 & H3 & Hk).
    rewrite E. eexists _, _. split; [reflexivity|].
    split; [exact Hk|]. split; [exact H1|]. split; [exact H2|exact H3].
Qed.

Lemma insert_canhan_lookup_witness :
  exists c' counts,
    insert_canhan (connect scenario_store [])
                  (XMLParser.extract_canhan_data scenario_doc) = (c', counts)
    /\ (forall k, canhan (working c') !! k
                  = match canhan (working (connect scenario_store [])) !! k with
                    | Some v => Some v
                    | None => first_person k (XMLParser.extract_canhan_data scenario_doc)
                    end)
    /\ thuadat (working c') = thuadat (working (connect scenario_store []))
    /\ giaychungnhan (working c') = giaychungnhan (working (connect scenario_store []))
    /\ hoso (working c') = hoso (working (connect scenario_store [])).
Proof.
  apply insert_canhan_lookup; [reflexivity|constructor].
Defined.

(** ** What a load without failure leaves in the store *)












(** The rows of the scenario document in an empty store, and a component
    with a dangling reference beside them. *)
Example clean_load_rows :
  let after :=
    committed (fst (load_records (connect empty_db [])
                                 (XMLParser.extract_thuadat_data scenario_doc)
                                 (XMLParser.extract_canhan_data scenario_doc)
                                 (XMLParser.extract_giaychungnhan_data scenario_doc)
                                 (XMLParser.extract_hoso_data scenario_doc
                                    ++ [component_g9]))) in
  hoso after !! "T1"
  = Some (HoSo.mk "T1" (Some "H1") (Some "G1") None None None None None)
  /\ hoso after !! "T9" = Some (HoSo.set_giayChungNhanID None component_g9)
  /\ canhan after !! "B"
     = Some (CaNhan.mk "B" (Some "Binh") None None None None
                       None None None None None None None None).
Proof. vm_compute. repeat split; reflexivity. Qed.

(** ** What the insert methods report and return *)

Lemma validate_cases (valid : gset string) (d : HoSo.t) :
  validate valid d = d \/ validate valid d = HoSo.set_giayChungNhanID None d.
Proof.
  unfold validate. destruct (truthy_gcn_id d); [|left; reflexivity].
  destruct (decide _); [left|right]; reflexivity.
Qed.

(** X16.  [insert_hoso] gives back the records it was given, in their
    order, each one either as it was or with its certificate reference set
    to null and nothing else changed; no record is dropped, added or moved,
    whether the check query or the insert fails or not. *)
Theorem insert_hoso_only_nulls_references (c : conn) (data_list : list HoSo.t) :
  Forall2 (fun d d' => d' = d \/ d' = HoSo.set_giayChungNhanID None d)
          data_list (snd (fst (insert_hoso c data_list)))
  /\ List.map HoSo.thanhPhanHoSoID (snd (fst (insert_hoso c data_list)))
     = List.map HoSo.thanhPhanHoSoID data_list.
Proof.
  assert (G : forall valid (l : list HoSo.t),
             Forall2 (fun d d' => d' = d \/ d' = HoSo.set_giayChungNhanID None d)
                     l (List.map (validate valid) l)
             /\ List.map HoSo.thanhPhanHoSoID (List.map (validate valid) l)
                = List.map HoSo.thanhPhanHoSoID l).
  { intros valid l. induction l as [|d l [IH1 IH2]]; [split; [constructor|reflexivity]|].
    split.
    - constructor; [apply validate_cases|exact IH1].
    - cbn [List.map]. rewrite validate_key, IH2. reflexivity. }
  destruct data_list as [|x l]; [split; [constructor|reflexivity]|].
  unfold insert_hoso.
  destruct (check_gcn_ids c (unique_gcn_ids (x :: l))) as [c1 valid].
  destruct (try_execute_batch c1 _ _ _) as [c2 counts]. cbn [fst snd].
  apply G.
Qed.




End MoreLoader.

(** * The normalized dates are read back *)

Section Dates.

Import PyStr Strptime XMLParser Notions Terms.


































(** The two cases on concrete texts: a date of the year 2020 is read again
    as itself, a date of the year 999 is written on three digits and then
    refused. *)
Example reparsing_2020_and_999 :
  _parse_date (Some "15/03/2020") = Some "2020-03-15"
  /\ _parse_date (Some "2020-03-15") = Some "2020-03-15"
  /\ _parse_date (Some "0999-01-31") = Some "999-01-31"
  /\ _parse_date (Some "999-01-31") = None.
Proof. repeat split; vm_compute; reflexivity. Qed.

End Dates.

